(** * A cash machine: withdrawal authorisation and note allocation

    Shallow embedding of [driver.ts]: the globals of the script become the
    fields of one [State] record, every procedure becomes a function on
    [State], and the browser (key presses, the PIN endpoint, the timer of
    [setTimeout]) is the environment that feeds [Event]s to the machine.

    Numbers.  Counts, balances and amounts are integers well inside the range
    where a JavaScript double is exact, so they are modelled as [Z].  The
    two places where the script leaves the integers are modelled as such:
    [parseInt] may return [NaN], and the quotient [amount / totalNotes] is a
    rational (or an infinity, or [NaN], when the divisor is zero).

    Strings.  The buffers hold the characters of the keys pressed; they are
    taken to be ASCII, one character per key. *)

From Stdlib Require Import ZArith QArith Ascii String List Bool Lia.
From stdpp Require Import base list strings pretty.

Close Scope Q_scope.
Open Scope Z_scope.

(** ** JavaScript numbers *)

Module JS.

(** The result of [parseInt]: an integer, or [NaN]. *)
Inductive number := Int (z : Z) | NaN.

(** [a <= b], false as soon as [a] is [NaN]. *)
Definition le (a : number) (b : Z) : bool :=
  match a with Int x => x <=? b | NaN => false end.

(** [a > b]. *)
Definition gt (a : number) (b : Z) : bool :=
  match a with Int x => b <? x | NaN => false end.

(** [a % m == 0]; [%] is the truncated remainder, and [NaN % m] is [NaN]. *)
Definition remIsZero (a : number) (m : Z) : bool :=
  match a with Int x => Z.rem x m =? 0 | NaN => false end.

(** String concatenation with a number: ["" + a]. *)
Definition toString (a : number) : string :=
  match a with Int x => pretty x | NaN => "NaN" end.

(** The quotient of two integers.  The script only ever asks whether an
    integer count is below the quotient; for counts and amounts below 2^26
    the double that JavaScript computes answers as the exact quotient does,
    so the quotient is kept exact. *)
Inductive quotient := Fin (q : Q) | PlusInfinity | MinusInfinity | Undefined.

Definition div (a b : Z) : quotient :=
  if b =? 0 then
    if 0 <? a then PlusInfinity
    else if a <? 0 then MinusInfinity
    else Undefined
  else Fin (inject_Z a / inject_Z b)%Q.

(** [n < q] for an integer [n]. *)
Definition ltQuotient (n : Z) (q : quotient) : bool :=
  match q with
  | Fin r => negb (Qle_bool r (inject_Z n))
  | PlusInfinity => true
  | MinusInfinity => false
  | Undefined => false
  end.

(** *** [parseInt] without a radix *)

Definition isWhiteSpace (c : ascii) : bool :=
  let n := nat_of_ascii c in
  (Nat.eqb n 9 || Nat.eqb n 10 || Nat.eqb n 11 || Nat.eqb n 12
   || Nat.eqb n 13 || Nat.eqb n 32)%bool.

Fixpoint trimStart (s : string) : string :=
  match s with
  | String c r => if isWhiteSpace c then trimStart r else s
  | EmptyString => s
  end.

(** Value of a character as a digit: 0-9, then a-z and A-Z for 10-35. *)
Definition digitValue (c : ascii) : option Z :=
  let n := Z.of_nat (nat_of_ascii c) in
  if (48 <=? n) && (n <=? 57) then Some (n - 48)
  else if (97 <=? n) && (n <=? 122) then Some (n - 87)
  else if (65 <=? n) && (n <=? 90) then Some (n - 55)
  else None.

(** The longest prefix of radix-[r] digits, read as a number; [acc] is
    [NaN] until the first digit is seen. *)
Fixpoint digits (r : Z) (s : string) (acc : number) : number :=
  match s with
  | String c rest =>
      match digitValue c with
      | Some d =>
          if d <? r
          then digits r rest (Int (r * match acc with Int a => a | NaN => 0 end + d))
          else acc
      | None => acc
      end
  | EmptyString => acc
  end.

Definition negate (a : number) : number :=
  match a with Int x => Int (- x) | NaN => NaN end.

Definition unsigned (s : string) : number :=
  match s with
  | String "0" (String "x" r) => digits 16 r NaN
  | String "0" (String "X" r) => digits 16 r NaN
  | _ => digits 10 s NaN
  end.

Definition parseInt (s : string) : number :=
  match trimStart s with
  | String "-" r => negate (unsigned r)
  | String "+" r => unsigned r
  | t => unsigned t
  end.

End JS.

(** ** Data *)

(** [interface Notes]: a bunch of pound notes. *)
Record Notes := { five : Z; ten : Z; twenty : Z }.

(** The globals of the script, the text of the terminal on the page, the
    timer that is pending, and two history variables that record what the
    machine asked of its collaborators. *)
Record State := {
  messageTimerOn : bool;
  pin : string;
  toWithdraw : string;
  balance : Z;
  loginScreen : bool;
  userAmount : Z;
  initialBalance : Z;
  availableNotes : Notes;
  userNotes : Notes;
  (** [terminalMessenger.textContent] *)
  terminalText : string;
  (** the [default_message] held by the callback given to [setTimeout] *)
  pendingTimeout : option string;
  (** history: the [message] of every call of [displayTimedMessage],
      latest first *)
  displayCalls : list string;
  (** history: the amount passed to and the notes returned by every call
      of [getDenominationsNeeded], latest first *)
  allocatorCalls : list (Z * Notes)
}.

Definition overdraftLimit : Z := 100.

(** The state of the script when the page has loaded. *)
Definition init : State := {|
  messageTimerOn := false;
  pin := "";
  toWithdraw := "";
  balance := 0;
  loginScreen := true;
  userAmount := 0;
  initialBalance := 0;
  availableNotes := {| five := 4; ten := 15; twenty := 7 |};
  userNotes := {| five := 0; ten := 0; twenty := 0 |};
  terminalText := "";
  pendingTimeout := None;
  displayCalls := [];
  allocatorCalls := []
|}.

(** Assignments to the globals. *)
Definition set_messageTimerOn (v : bool) (st : State) : State :=
  {| messageTimerOn := v; pin := pin st; toWithdraw := toWithdraw st;
     balance := balance st; loginScreen := loginScreen st;
     userAmount := userAmount st; initialBalance := initialBalance st;
     availableNotes := availableNotes st; userNotes := userNotes st;
     terminalText := terminalText st; pendingTimeout := pendingTimeout st;
     displayCalls := displayCalls st; allocatorCalls := allocatorCalls st |}.

Definition set_pin (v : string) (st : State) : State :=
  {| messageTimerOn := messageTimerOn st; pin := v; toWithdraw := toWithdraw st;
     balance := balance st; loginScreen := loginScreen st;
     userAmount := userAmount st; initialBalance := initialBalance st;
     availableNotes := availableNotes st; userNotes := userNotes st;
     terminalText := terminalText st; pendingTimeout := pendingTimeout st;
     displayCalls := displayCalls st; allocatorCalls := allocatorCalls st |}.

Definition set_toWithdraw (v : string) (st : State) : State :=
  {| messageTimerOn := messageTimerOn st; pin := pin st; toWithdraw := v;
     balance := balance st; loginScreen := loginScreen st;
     userAmount := userAmount st; initialBalance := initialBalance st;
     availableNotes := availableNotes st; userNotes := userNotes st;
     terminalText := terminalText st; pendingTimeout := pendingTimeout st;
     displayCalls := displayCalls st; allocatorCalls := allocatorCalls st |}.

Definition set_balance (v : Z) (st : State) : State :=
  {| messageTimerOn := messageTimerOn st; pin := pin st; toWithdraw := toWithdraw st;
     balance := v; loginScreen := loginScreen st;
     userAmount := userAmount st; initialBalance := initialBalance st;
     availableNotes := availableNotes st; userNotes := userNotes st;
     terminalText := terminalText st; pendingTimeout := pendingTimeout st;
     displayCalls := displayCalls st; allocatorCalls := allocatorCalls st |}.

Definition set_loginScreen (v : bool) (st : State) : State :=
  {| messageTimerOn := messageTimerOn st; pin := pin st; toWithdraw := toWithdraw st;
     balance := balance st; loginScreen := v;
     userAmount := userAmount st; initialBalance := initialBalance st;
     availableNotes := availableNotes st; userNotes := userNotes st;
     terminalText := terminalText st; pendingTimeout := pendingTimeout st;
     displayCalls := displayCalls st; allocatorCalls := allocatorCalls st |}.

Definition set_userAmount (v : Z) (st : State) : State :=
  {| messageTimerOn := messageTimerOn st; pin := pin st; toWithdraw := toWithdraw st;
     balance := balance st; loginScreen := loginScreen st;
     userAmount := v; initialBalance := initialBalance st;
     availableNotes := availableNotes st; userNotes := userNotes st;
     terminalText := terminalText st; pendingTimeout := pendingTimeout st;
     displayCalls := displayCalls st; allocatorCalls := allocatorCalls st |}.

Definition set_initialBalance (v : Z) (st : State) : State :=
  {| messageTimerOn := messageTimerOn st; pin := pin st; toWithdraw := toWithdraw st;
     balance := balance st; loginScreen := loginScreen st;
     userAmount := userAmount st; initialBalance := v;
     availableNotes := availableNotes st; userNotes := userNotes st;
     terminalText := terminalText st; pendingTimeout := pendingTimeout st;
     displayCalls := displayCalls st; allocatorCalls := allocatorCalls st |}.

Definition set_availableNotes (v : Notes) (st : State) : State :=
  {| messageTimerOn := messageTimerOn st; pin := pin st; toWithdraw := toWithdraw st;
     balance := balance st; loginScreen := loginScreen st;
     userAmount := userAmount st; initialBalance := initialBalance st;
     availableNotes := v; userNotes := userNotes st;
     terminalText := terminalText st; pendingTimeout := pendingTimeout st;
     displayCalls := displayCalls st; allocatorCalls := allocatorCalls st |}.

Definition set_userNotes (v : Notes) (st : State) : State :=
  {| messageTimerOn := messageTimerOn st; pin := pin st; toWithdraw := toWithdraw st;
     balance := balance st; loginScreen := loginScreen st;
     userAmount := userAmount st; initialBalance := initialBalance st;
     availableNotes := availableNotes st; userNotes := v;
     terminalText := terminalText st; pendingTimeout := pendingTimeout st;
     displayCalls := displayCalls st; allocatorCalls := allocatorCalls st |}.

Definition set_terminalText (v : string) (st : State) : State :=
  {| messageTimerOn := messageTimerOn st; pin := pin st; toWithdraw := toWithdraw st;
     balance := balance st; loginScreen := loginScreen st;
     userAmount := userAmount st; initialBalance := initialBalance st;
     availableNotes := availableNotes st; userNotes := userNotes st;
     terminalText := v; pendingTimeout := pendingTimeout st;
     displayCalls := displayCalls st; allocatorCalls := allocatorCalls st |}.

Definition set_pendingTimeout (v : option string) (st : State) : State :=
  {| messageTimerOn := messageTimerOn st; pin := pin st; toWithdraw := toWithdraw st;
     balance := balance st; loginScreen := loginScreen st;
     userAmount := userAmount st; initialBalance := initialBalance st;
     availableNotes := availableNotes st; userNotes := userNotes st;
     terminalText := terminalText st; pendingTimeout := v;
     displayCalls := displayCalls st; allocatorCalls := allocatorCalls st |}.

Definition set_displayCalls (v : list string) (st : State) : State :=
  {| messageTimerOn := messageTimerOn st; pin := pin st; toWithdraw := toWithdraw st;
     balance := balance st; loginScreen := loginScreen st;
     userAmount := userAmount st; initialBalance := initialBalance st;
     availableNotes := availableNotes st; userNotes := userNotes st;
     terminalText := terminalText st; pendingTimeout := pendingTimeout st;
     displayCalls := v; allocatorCalls := allocatorCalls st |}.

Definition set_allocatorCalls (v : list (Z * Notes)) (st : State) : State :=
  {| messageTimerOn := messageTimerOn st; pin := pin st; toWithdraw := toWithdraw st;
     balance := balance st; loginScreen := loginScreen st;
     userAmount := userAmount st; initialBalance := initialBalance st;
     availableNotes := availableNotes st; userNotes := userNotes st;
     terminalText := terminalText st; pendingTimeout := pendingTimeout st;
     displayCalls := displayCalls st; allocatorCalls := v |}.

(** ** Inventory *)

Definition calculateTotalRemainingCash (st : State) : Z :=
  (five (availableNotes st) * 5) + (ten (availableNotes st) * 10)
  + (twenty (availableNotes st) * 20).

Definition isATMEmpty (st : State) : bool :=
  calculateTotalRemainingCash st =? 0.

Definition haveEnoughCash (to_withdraw : JS.number) (st : State) : bool :=
  JS.le to_withdraw (calculateTotalRemainingCash st).

(** ** The allocator *)

Module Allocator.

(** The local variables of [getDenominationsNeeded] that its loops
    assign to; [amount] is the parameter, counted down to the remainder. *)
Record Locals := {
  amount : Z;
  notesAvailable : list Z;
  notesNeeded : list Z
}.

Definition denominations : list Z := [20; 10; 5].

#[global] Instance quotient_inhabited : Inhabited JS.quotient :=
  populate JS.Undefined.

(** The body shared by the two [while] loops. *)
Definition takeNote (i : nat) (s : Locals) : Locals :=
  {| amount := amount s - denominations !!! i;
     notesAvailable := <[i := notesAvailable s !!! i - 1]> (notesAvailable s);
     notesNeeded := <[i := notesNeeded s !!! i + 1]> (notesNeeded s) |}.

(** The condition of the first loop. *)
Definition cappedCond (noteLimits : list JS.quotient) (i : nat) (s : Locals) : bool :=
  (denominations !!! i <=? amount s)
  && (0 <? notesAvailable s !!! i)
  && JS.ltQuotient (notesNeeded s !!! i) (noteLimits !!! i).

(** The condition of the second loop. *)
Definition uncappedCond (i : nat) (s : Locals) : bool :=
  (denominations !!! i <=? amount s) && (0 <? notesAvailable s !!! i).

(** [while (cond) body], unrolled at most [fuel] times. *)
Fixpoint while (fuel : nat) (cond : Locals -> bool) (body : Locals -> Locals)
    (s : Locals) : Locals :=
  match fuel with
  | O => s
  | S fuel' => if cond s then while fuel' cond body (body s) else s
  end.

(** One [while] loop of the script at index [i].  Each round takes a note
    of [notesAvailable[i]], which both conditions require to be positive:
    that count bounds the number of rounds. *)
Definition whileTaking (cond : nat -> Locals -> bool) (i : nat) (s : Locals) : Locals :=
  while (Z.to_nat (notesAvailable s !!! i)) (cond i) (takeNote i) s.

(** [for (let i = 0; i < denominations.length; i++) loop(i)] *)
Definition forEachDenomination (loop : nat -> Locals -> Locals) (s : Locals) : Locals :=
  fold_left (fun s i => loop i s) (seq 0 (length denominations)) s.

(** The two passes, up to the point where the globals are written back. *)
Definition passes (requested : Z) (available : Notes) : Locals :=
  let notesAvailable := [twenty available; ten available; five available] in
  let totalNotes := twenty available + ten available + five available in
  let noteLimits := [JS.div requested totalNotes; JS.div requested totalNotes;
                     JS.div requested totalNotes] in
  let notesNeeded := [0; 0; 0] in
  let s := forEachDenomination (whileTaking (cappedCond noteLimits))
             {| amount := requested; notesAvailable := notesAvailable;
                notesNeeded := notesNeeded |} in
  if negb (amount s =? 0)
  then forEachDenomination (whileTaking uncappedCond) s
  else s.

(** What is left of the requested amount when the passes are over. *)
Definition remainder (requested : Z) (available : Notes) : Z :=
  amount (passes requested available).

End Allocator.

Definition getDenominationsNeeded (amount : Z) (st : State) : Notes * State :=
  let s := Allocator.passes amount (availableNotes st) in
  (* Update the global notes available *)
  let st := set_availableNotes
              {| twenty := Allocator.notesAvailable s !!! 0%nat;
                 ten := Allocator.notesAvailable s !!! 1%nat;
                 five := Allocator.notesAvailable s !!! 2%nat |} st in
  let notes := {| twenty := Allocator.notesNeeded s !!! 0%nat;
                  ten := Allocator.notesNeeded s !!! 1%nat;
                  five := Allocator.notesNeeded s !!! 2%nat |} in
  (notes, set_allocatorCalls ((amount, notes) :: allocatorCalls st) st).

(** ** Account *)

Definition trueBalance (st : State) : Z := balance st + overdraftLimit.

Definition updateUserStats (notesWithdrawn : Notes) (st : State) : State :=
  let totalWithdrawn := (five notesWithdrawn * 5) + (ten notesWithdrawn * 10)
                        + (twenty notesWithdrawn * 20) in
  let st := set_balance (balance st - totalWithdrawn) st in
  let st := set_userAmount (userAmount st + totalWithdrawn) st in
  set_userNotes
    {| five := five (userNotes st) + five notesWithdrawn;
       ten := ten (userNotes st) + ten notesWithdrawn;
       twenty := twenty (userNotes st) + twenty notesWithdrawn |} st.

(** [updateStatsPanel] only renders [userNotes] and [userAmount] on the
    page; it assigns to no global and is left out. *)
Definition withdraw (amount_to_withdraw : JS.number) (st : State) : State :=
  let trueBalance := balance st + overdraftLimit in
  if JS.gt amount_to_withdraw 0 && JS.le amount_to_withdraw trueBalance then
    match amount_to_withdraw with
    | JS.Int amount =>
        let '(batchOfNotes, st) := getDenominationsNeeded amount st in
        updateUserStats batchOfNotes st
    | JS.NaN => st
    end
  else st.

(** ** Display *)

Definition pinToAstrisk (st : State) : string :=
  fold_left (fun astrisks _ => astrisks +:+ "*") (seq 0 (String.length (pin st))) "".

Definition pinMessage (st : State) : string := "Pin: " +:+ pinToAstrisk st.

Definition withdrawalMessage (st : State) : string :=
  if balance st <? 0 then
    "Overdraft: " +:+ pretty (userAmount st - initialBalance st)
    +:+ " | Balance: " +:+ pretty (trueBalance st)
    +:+ " | Amount to withdraw: " +:+ toWithdraw st
  else
    "Balance: " +:+ pretty (trueBalance st)
    +:+ " | Amount to withdraw: " +:+ toWithdraw st.

Definition insertionError : string := "No more can be inserted!!".
Definition deletionError : string := "No more can be deleted!!".

(** The first line is the history variable; the rest is the procedure. *)
Definition displayTimedMessage (message default_message : string) (st : State) : State :=
  let st := set_displayCalls (message :: displayCalls st) st in
  if negb (messageTimerOn st) then
    let st := set_messageTimerOn true st in
    let st := set_terminalText message st in
    set_pendingTimeout (Some default_message) st
  else st.

(** The callback that [displayTimedMessage] hands to [setTimeout]. *)
Definition timeoutCallback (st : State) : State :=
  match pendingTimeout st with
  | Some default_message =>
      let st := set_terminalText default_message st in
      let st := set_messageTimerOn false st in
      set_pendingTimeout None st
  | None => st
  end.

(** ** Session *)

Definition pinInserter (digit : string) (st : State) : State :=
  if Nat.eqb (String.length digit) 1 && Nat.ltb (String.length (pin st)) 4
     && negb (messageTimerOn st)
  then
    let st := set_pin (pin st +:+ digit) st in
    set_terminalText (pinMessage st) st
  else displayTimedMessage insertionError (pinMessage st) st.

Definition withdrawalInserter (digit : string) (st : State) : State :=
  if Nat.eqb (String.length digit) 1 && Nat.ltb (String.length (toWithdraw st)) 5
     && negb (messageTimerOn st)
  then
    let st := set_toWithdraw (toWithdraw st +:+ digit) st in
    set_terminalText (withdrawalMessage st) st
  else displayTimedMessage insertionError (withdrawalMessage st) st.

Definition inputManager (digit : string) (st : State) : State :=
  if loginScreen st then pinInserter digit st else withdrawalInserter digit st.

Definition digitRemover (st : State) : State :=
  if loginScreen st then
    if Nat.ltb 0 (String.length (pin st)) && negb (messageTimerOn st) then
      let st := set_pin (String.substring 0 (String.length (pin st) - 1) (pin st)) st in
      set_terminalText (pinMessage st) st
    else displayTimedMessage deletionError (pinMessage st) st
  else
    if Nat.ltb 0 (String.length (toWithdraw st)) && negb (messageTimerOn st) then
      let st := set_toWithdraw
                  (String.substring 0 (String.length (toWithdraw st) - 1) (toWithdraw st)) st in
      set_terminalText (withdrawalMessage st) st
    else displayTimedMessage deletionError (withdrawalMessage st) st.

(** The blocking request to the PIN endpoint.  [response] is the
    [currentBalance] of a 200 reply, or [None] for any other outcome. *)
Definition login (response : option Z) (st : State) : bool * State :=
  match response with
  | Some currentBalance =>
      let st := set_balance currentBalance st in
      (true, set_initialBalance (balance st) st)
  | None => (false, st)
  end.

Definition attemptUserInput (response : option Z) (st : State) : State :=
  if loginScreen st then
    let '(valid, st) := login response st in
    if valid then
      let st := set_loginScreen false st in
      displayTimedMessage "PIN correct!" (withdrawalMessage st) st
    else
      let st := set_pin "" st in
      displayTimedMessage "PIN incorrect!" (pinMessage st) st
  else
    let castedWithdrawalAmount := JS.parseInt (toWithdraw st) in
    if JS.le castedWithdrawalAmount (trueBalance st) then
      let enoughCashPresent := haveEnoughCash castedWithdrawalAmount st in
      if JS.remIsZero castedWithdrawalAmount 5 && enoughCashPresent then
        let st := withdraw castedWithdrawalAmount st in
        let st := set_toWithdraw "" st in
        displayTimedMessage ("Withdrawn: " +:+ JS.toString castedWithdrawalAmount)
          (withdrawalMessage st) st
      else if negb enoughCashPresent then
        let st := set_toWithdraw "" st in
        displayTimedMessage "Not enougth notes present!" (withdrawalMessage st) st
      else
        let st := set_toWithdraw "" st in
        displayTimedMessage "Can't dispense that denomination!!" (withdrawalMessage st) st
    else
      let st := set_toWithdraw "" st in
      displayTimedMessage "Not enough in Account!" (withdrawalMessage st) st.

(** ** The machine and its environment *)

Inductive Event :=
| Digit (digit : string)          (* a key: [inputManager(digit)] *)
| Delete                          (* the delete key: [digitRemover()] *)
| Confirm (response : option Z)   (* the enter key: [attemptUserInput()],
                                     with what the PIN endpoint answers if asked *)
| Timeout.                        (* the timer of [setTimeout] fires *)

Definition step (e : Event) (st : State) : State :=
  match e with
  | Digit digit => inputManager digit st
  | Delete => digitRemover st
  | Confirm response => attemptUserInput response st
  | Timeout => timeoutCallback st
  end.

Definition run (events : list Event) (st : State) : State :=
  fold_left (fun st e => step e st) events st.

(** Keying in a text, one character per key press. *)
Fixpoint keys (text : string) : list Event :=
  match text with
  | String c rest => Digit (String c EmptyString) :: keys rest
  | EmptyString => []
  end.

(** Keying in an amount and confirming it, then waiting for the message to
    go away. *)
Definition request (text : string) : list Event :=
  keys text ++ [Confirm None; Timeout].

Definition reachable (st : State) : Prop :=
  exists events, st = run events init.

(** ** The vocabulary of the specification *)

(** Value of a bunch of notes. *)
Definition notesValue (n : Notes) : Z :=
  (five n * 5) + (ten n * 10) + (twenty n * 20).

Definition noNotes : Notes := {| five := 0; ten := 0; twenty := 0 |}.

(** Counts are never negative. *)
Definition nonNegative (n : Notes) : Prop :=
  0 <= five n /\ 0 <= ten n /\ 0 <= twenty n.

Definition inOverdraft (st : State) : bool := balance st <? 0.

(** The signals the specification names.  The script has no type of
    signals: it shows a message.  [messagesOf] lists, for each signal, the
    messages of the script that report the condition the signal stands for
    (the test of the branch that shows the message).  No message of the
    script reports a bundle that falls short of the amount, or a buffer that
    is not a number. *)
Inductive Signal :=
| InputRejected
| InvalidPin
| InsufficientBalance
| NonDivisibleAmount
| InsufficientCash
| DenominationMismatch
| InvalidAmount
| WithdrawalSucceeded (amount : Z).

Definition messagesOf (sig : Signal) : list string :=
  match sig with
  | InputRejected => [insertionError; deletionError]
  | InvalidPin => ["PIN incorrect!"]
  | InsufficientBalance => ["Not enough in Account!"]
  | NonDivisibleAmount => ["Can't dispense that denomination!!"]
  | InsufficientCash => ["Not enougth notes present!"]
  | DenominationMismatch => []
  | InvalidAmount => []
  | WithdrawalSucceeded amount => ["Withdrawn: " +:+ pretty amount]
  end.

(** Going from [st] to [st'] the machine made exactly one call of
    [displayTimedMessage], with a message of [sig]. *)
Definition signals (sig : Signal) (st st' : State) : Prop :=
  exists message,
    displayCalls st' = message :: displayCalls st /\ In message (messagesOf sig).

(** Bunches of notes handed out: the sum of a list of values. *)
Definition sumZ (l : list Z) : Z := fold_right Z.add 0 l.

(** The call of the allocator composed the amount it was given. *)
Definition composedInFull (call : Z * Notes) : Prop :=
  notesValue (snd call) = fst call.

(** The books of the machine agree with its stock. *)
Definition cashLedger (st : State) : Prop :=
  calculateTotalRemainingCash init - calculateTotalRemainingCash st
  = sumZ (map (fun call => notesValue (snd call)) (allocatorCalls st))
  /\ userAmount st = sumZ (map (fun call => notesValue (snd call)) (allocatorCalls st)).

(** The buffer in use and its cap. *)
Definition activeBuffer (st : State) : string :=
  if loginScreen st then pin st else toWithdraw st.

Definition activeCap (st : State) : nat :=
  if loginScreen st then 4%nat else 5%nat.

Definition buffersWithinCaps (st : State) : Prop :=
  (String.length (pin st) <= 4)%nat /\ (String.length (toWithdraw st) <= 5)%nat.

(** *** What an event books *)

(** An event either leaves stock, statistics and balance alone (a login
    apart, which sets the balance), or is a confirmation that calls the
    allocator once, with a positive amount, and books the notes it returns. *)
Inductive Booked (st st' : State) : Prop :=
| NothingBooked :
    availableNotes st' = availableNotes st ->
    userNotes st' = userNotes st ->
    userAmount st' = userAmount st ->
    allocatorCalls st' = allocatorCalls st ->
    Booked st st'
| NotesBooked (amount : Z) (notes : Notes) :
    0 < amount ->
    notes = fst (getDenominationsNeeded amount st) ->
    availableNotes st' = availableNotes (snd (getDenominationsNeeded amount st)) ->
    userNotes st' = {| five := five (userNotes st) + five notes;
                       ten := ten (userNotes st) + ten notes;
                       twenty := twenty (userNotes st) + twenty notes |} ->
    userAmount st' = userAmount st + notesValue notes ->
    balance st' = balance st - notesValue notes ->
    allocatorCalls st' = (amount, notes) :: allocatorCalls st ->
    Booked st st'.

(** *** Traces used below *)

(** The trace that leaves two ten-pound notes in the machine: a login with
    a balance of 1000, then a withdrawal of 290. *)
Definition twoTensLeft : list Event :=
  [Confirm (Some 1000); Timeout] ++ request "290".

(** The trace that brings the balance to 50 with fifteen tens and one five
    in the machine: a login with 205, seven withdrawals of 20 and three of
    5. *)
Definition fifteenTensOneFive : list Event :=
  [Confirm (Some 205); Timeout]
  ++ concat (replicate 7 (request "20"))
  ++ concat (replicate 3 (request "5")).

(** *** The loops of the allocator *)

Module AllocatorSpec.
Import Allocator.

(** What the loops keep true of their variables, for a call with
    [requested] on the inventory [available]: the arrays keep their three
    cells, every note taken is a note less in stock, and the notes taken
    are worth what the amount has gone down by. *)
Record Inv (requested : Z) (available : Notes) (s : Locals) : Prop := {
  inv_cells : exists a0 a1 a2 n0 n1 n2,
    notesAvailable s = [a0; a1; a2] /\ notesNeeded s = [n0; n1; n2]
    /\ a0 + n0 = twenty available /\ a1 + n1 = ten available
    /\ a2 + n2 = five available
    /\ amount s + 20 * n0 + 10 * n1 + 5 * n2 = requested
    /\ 0 <= n0 /\ 0 <= n1 /\ 0 <= n2
    /\ (0 <= twenty available -> 0 <= a0)
    /\ (0 <= ten available -> 0 <= a1)
    /\ (0 <= five available -> 0 <= a2);
  inv_amount : 0 <= requested -> 0 <= amount s
}.

Definition needsStock (cond : nat -> Locals -> bool) : Prop :=
  forall i s, (i < 3)%nat -> cond i s = true ->
    0 < notesAvailable s !!! i /\ 0 < denominations !!! i <= amount s.

End AllocatorSpec.

(** *** Further vocabulary *)

(** The globals of the script, the timer flag apart. *)
Definition globals (st : State) :
    string * string * Z * bool * Z * Z * Notes * Notes :=
  (pin st, toWithdraw st, balance st, loginScreen st, userAmount st,
   initialBalance st, availableNotes st, userNotes st).

(** The timer of the messages: at rest, or running with the text to go
    back to. *)
Definition timerAtRest (st : State) : Prop :=
  messageTimerOn st = false /\ pendingTimeout st = None.

Definition timerRunning (st : State) : Prop :=
  messageTimerOn st = true
  /\ exists default_message, pendingTimeout st = Some default_message.


(** A text made of the keys 0 to 9 only. *)
Definition isDecimalDigit (c : ascii) : bool :=
  (48 <=? Z.of_nat (nat_of_ascii c)) && (Z.of_nat (nat_of_ascii c) <=? 57).

Fixpoint allDecimalDigits (s : string) : bool :=
  match s with
  | String c rest => isDecimalDigit c && allDecimalDigits rest
  | EmptyString => true
  end.

(** A count of notes that respects the cap [requested / total]: none, or
    the note before the last was still below the cap. *)
Definition withinCap (requested total n : Z) : Prop :=
  n = 0 \/ (n - 1) * total < requested.

(** The state of the loops of [getDenominationsNeeded] after the first
    [for] statement, the one with the cap. *)
Definition firstPass (requested : Z) (available : Notes) : Allocator.Locals :=
  let totalNotes := twenty available + ten available + five available in
  let noteLimits := [JS.div requested totalNotes; JS.div requested totalNotes;
                     JS.div requested totalNotes] in
  Allocator.forEachDenomination (Allocator.whileTaking (Allocator.cappedCond noteLimits))
    {| Allocator.amount := requested;
       Allocator.notesAvailable := [twenty available; ten available; five available];
       Allocator.notesNeeded := [0; 0; 0] |}.

(** ** The soft cap *)

(** With notes in stock, a count is below [amount / totalNotes] exactly
    when the count times [totalNotes] is below the amount. *)
Lemma ltQuotient_div (n a t : Z) :
  0 < t -> JS.ltQuotient n (JS.div a t) = (n * t <? a).
Proof.
  intros Ht. unfold JS.div. rewrite (proj2 (Z.eqb_neq t 0)) by lia.
  cbn [JS.ltQuotient].
  destruct t as [|p|p]; [lia| |lia].
  destruct (Z.ltb_spec (n * Z.pos p) a) as [H|H].
  - apply negb_true_iff, not_true_iff_false. rewrite Qle_bool_iff.
    unfold Qle, Qdiv, Qmult, Qinv, inject_Z. cbn. lia.
  - apply negb_false_iff. rewrite Qle_bool_iff.
    unfold Qle, Qdiv, Qmult, Qinv, inject_Z. cbn. lia.
Qed.

(** ** The allocator: loop invariants *)

Module AllocatorFacts.
Import Allocator AllocatorSpec.

Lemma cappedCond_needsStock noteLimits : needsStock (cappedCond noteLimits).
Proof.
  intros i s Hi H. unfold cappedCond in H.
  apply andb_prop in H as [H _]. apply andb_prop in H as [Hd Ha].
  apply Z.leb_le in Hd. apply Z.ltb_lt in Ha.
  split; [exact Ha|]. split; [|exact Hd].
  destruct i as [|[|[|i]]]; cbn in *; lia.
Qed.

Lemma uncappedCond_needsStock : needsStock uncappedCond.
Proof.
  intros i s Hi H. unfold uncappedCond in H.
  apply andb_prop in H as [Hd Ha].
  apply Z.leb_le in Hd. apply Z.ltb_lt in Ha.
  split; [exact Ha|]. split; [|exact Hd].
  destruct i as [|[|[|i]]]; cbn in *; lia.
Qed.

Lemma takeNote_inv requested available i s :
  (i < 3)%nat ->
  0 < notesAvailable s !!! i -> 0 < denominations !!! i <= amount s ->
  Inv requested available s -> Inv requested available (takeNote i s).
Proof.
  intros Hi Ha Hd [(a0 & a1 & a2 & n0 & n1 & n2 & Ea & En & H) Hamt].
  destruct s as [amt av nd]; cbn in *; subst av nd.
  split.
  - exists (if Nat.eqb i 0 then a0 - 1 else a0),
           (if Nat.eqb i 1 then a1 - 1 else a1),
           (if Nat.eqb i 2 then a2 - 1 else a2),
           (if Nat.eqb i 0 then n0 + 1 else n0),
           (if Nat.eqb i 1 then n1 + 1 else n1),
           (if Nat.eqb i 2 then n2 + 1 else n2).
    destruct i as [|[|[|i]]]; [| | |lia]; cbn in *;
      (split; [reflexivity|]); (split; [reflexivity|]); lia.
  - cbn. lia.
Qed.

Lemma while_inv requested available cond i :
  (i < 3)%nat -> needsStock cond ->
  forall fuel s,
    Inv requested available s ->
    Inv requested available (while fuel (cond i) (takeNote i) s).
Proof.
  intros Hi Hc fuel. induction fuel as [|fuel IH]; intros s Hs; cbn.
  - exact Hs.
  - destruct (cond i s) eqn:E; [|exact Hs].
    apply IH. destruct (Hc i s Hi E). now apply takeNote_inv.
Qed.

Lemma forEachDenomination_inv requested available cond s :
  needsStock cond ->
  Inv requested available s ->
  Inv requested available (forEachDenomination (whileTaking cond) s).
Proof.
  intros Hc Hs. unfold forEachDenomination, whileTaking. cbn.
  repeat (apply while_inv; [lia|exact Hc|]). exact Hs.
Qed.

Lemma passes_inv requested available :
  Inv requested available (passes requested available).
Proof.
  unfold passes.
  match goal with |- context [forEachDenomination (whileTaking (cappedCond ?lim)) ?s0] =>
    assert (H0 : Inv requested available s0);
    [|pose proof (forEachDenomination_inv requested available (cappedCond lim) s0
                    (cappedCond_needsStock lim) H0) as H1]
  end.
  { split; cbn; [|auto].
    exists (twenty available), (ten available), (five available), 0, 0, 0.
    repeat split; auto; lia. }
  destruct (negb _); [|exact H1].
  apply forEachDenomination_inv; [apply uncappedCond_needsStock|exact H1].
Qed.

(** The bound on the rounds is enough: a [while] loop of the script is
    left because its condition fails, not because the fuel ran out. *)
Lemma while_exit cond i :
  (i < 3)%nat -> needsStock cond ->
  forall fuel s,
    length (notesAvailable s) = 3%nat ->
    (Z.to_nat (notesAvailable s !!! i) <= fuel)%nat ->
    cond i (while fuel (cond i) (takeNote i) s) = false.
Proof.
  intros Hi Hc fuel. induction fuel as [|fuel IH]; intros s Hl Hf; cbn.
  - destruct (cond i s) eqn:E; [|reflexivity].
    destruct (Hc i s Hi E) as [Ha _]. lia.
  - destruct (cond i s) eqn:E; [|exact E].
    destruct (Hc i s Hi E) as [Ha _].
    apply IH; cbn.
    + now rewrite length_insert.
    + rewrite list_lookup_total_insert_eq by lia. lia.
Qed.

Lemma whileTaking_exit requested available cond i s :
  (i < 3)%nat -> needsStock cond -> Inv requested available s ->
  cond i (whileTaking cond i s) = false.
Proof.
  intros Hi Hc [(a0 & a1 & a2 & n0 & n1 & n2 & Ea & _) _].
  apply while_exit; auto. now rewrite Ea.
Qed.

(** A loop that has been left stays left: later rounds, at another index,
    only lower the amount. *)
Lemma takeNote_stuck i j s :
  i <> j -> (j < 3)%nat ->
  uncappedCond i s = false -> uncappedCond i (takeNote j s) = false.
Proof.
  intros Hij Hj H. unfold uncappedCond in *. cbn [takeNote amount notesAvailable].
  rewrite list_lookup_total_insert_ne by auto.
  apply andb_false_iff in H. apply andb_false_iff.
  destruct H as [H|H]; [left|right; exact H].
  apply Z.leb_gt in H. apply Z.leb_gt.
  assert (0 < denominations !!! j) by (destruct j as [|[|[|j]]]; cbn; lia).
  lia.
Qed.

Lemma while_stuck cond i j :
  i <> j -> (j < 3)%nat ->
  forall fuel s,
    uncappedCond i s = false ->
    uncappedCond i (while fuel (cond j) (takeNote j) s) = false.
Proof.
  intros Hij Hj fuel. induction fuel as [|fuel IH]; intros s H; cbn.
  - exact H.
  - destruct (cond j s); [|exact H]. apply IH. now apply takeNote_stuck.
Qed.

Lemma while_length cond j fuel :
  forall s,
    length (notesAvailable (while fuel (cond j) (takeNote j) s))
    = length (notesAvailable s).
Proof.
  induction fuel as [|fuel IH]; intros s; cbn; [reflexivity|].
  destruct (cond j s); [|reflexivity]. rewrite IH. cbn. apply length_insert.
Qed.

Lemma secondPass_stuck s i :
  length (notesAvailable s) = 3%nat -> (i < 3)%nat ->
  uncappedCond i (forEachDenomination (whileTaking uncappedCond) s) = false.
Proof.
  intros Hl Hi. unfold forEachDenomination. cbn [length denominations seq fold_left].
  set (s1 := whileTaking uncappedCond 0 s).
  set (s2 := whileTaking uncappedCond 1 s1).
  assert (L1 : length (notesAvailable s1) = 3%nat)
    by (subst s1; unfold whileTaking; now rewrite while_length).
  assert (L2 : length (notesAvailable s2) = 3%nat)
    by (subst s2; unfold whileTaking; now rewrite while_length).
  assert (E0 : uncappedCond 0 s1 = false)
    by (apply while_exit; [lia|apply uncappedCond_needsStock|exact Hl|lia]).
  assert (E1 : uncappedCond 1 s2 = false)
    by (apply while_exit; [lia|apply uncappedCond_needsStock|exact L1|lia]).
  assert (E2 : uncappedCond 2 (whileTaking uncappedCond 2 s2) = false)
    by (apply while_exit; [lia|apply uncappedCond_needsStock|exact L2|lia]).
  destruct i as [|[|[|i]]]; [| | |lia].
  - unfold whileTaking. apply while_stuck; [lia|lia|].
    subst s2. unfold whileTaking. now apply while_stuck; [lia|lia|].
  - unfold whileTaking. now apply while_stuck; [lia|lia|].
  - exact E2.
Qed.

(** When a remainder is left, the allocator has really failed: for each
    denomination, the remainder is below its value or none is in stock. *)
Lemma passes_stuck requested available i :
  (i < 3)%nat ->
  remainder requested available <> 0 ->
  uncappedCond i (passes requested available) = false.
Proof.
  intros Hi. unfold remainder, passes.
  match goal with |- context [forEachDenomination (whileTaking (cappedCond ?lim)) ?s0] =>
    assert (L : length (notesAvailable
                  (forEachDenomination (whileTaking (cappedCond lim)) s0)) = 3%nat)
  end.
  { unfold forEachDenomination, whileTaking. cbn [length denominations seq fold_left].
    now rewrite !while_length. }
  destruct (negb _) eqn:E.
  - intros _. now apply secondPass_stuck.
  - apply negb_false_iff, Z.eqb_eq in E. congruence.
Qed.

End AllocatorFacts.

(** ** What a call of the allocator does to the state *)

Arguments Allocator.passes : simpl never.
Arguments withdrawalMessage : simpl never.
Arguments pinMessage : simpl never.
Arguments JS.parseInt : simpl never.
Arguments pretty : simpl never.
Arguments displayTimedMessage : simpl never.

Section AllocatorCall.
Variable amount : Z.
Variable st : State.

Abbreviation notes := (fst (getDenominationsNeeded amount st)).
Abbreviation st' := (snd (getDenominationsNeeded amount st)).

Lemma getDenominationsNeeded_stock :
  twenty (availableNotes st') + twenty notes = twenty (availableNotes st)
  /\ ten (availableNotes st') + ten notes = ten (availableNotes st)
  /\ five (availableNotes st') + five notes = five (availableNotes st).
Proof.
  destruct (AllocatorFacts.passes_inv amount (availableNotes st))
    as [(a0 & a1 & a2 & n0 & n1 & n2 & Ea & En & H) _].
  unfold getDenominationsNeeded. cbn.
  rewrite Ea, En. cbn. lia.
Qed.

Lemma getDenominationsNeeded_value :
  notesValue notes + Allocator.remainder amount (availableNotes st) = amount.
Proof.
  destruct (AllocatorFacts.passes_inv amount (availableNotes st))
    as [(a0 & a1 & a2 & n0 & n1 & n2 & Ea & En & H) _].
  unfold getDenominationsNeeded, notesValue, Allocator.remainder.
  cbn. rewrite En. cbn. lia.
Qed.

Lemma getDenominationsNeeded_nonNegative :
  nonNegative notes
  /\ (nonNegative (availableNotes st) -> nonNegative (availableNotes st')).
Proof.
  destruct (AllocatorFacts.passes_inv amount (availableNotes st))
    as [(a0 & a1 & a2 & n0 & n1 & n2 & Ea & En & H) _].
  unfold getDenominationsNeeded, nonNegative.
  cbn. rewrite Ea, En. cbn. lia.
Qed.

Lemma getDenominationsNeeded_remainder :
  0 <= amount -> 0 <= Allocator.remainder amount (availableNotes st).
Proof.
  intros H. now apply (AllocatorFacts.passes_inv amount (availableNotes st)).
Qed.

Lemma getDenominationsNeeded_cash :
  calculateTotalRemainingCash st' + notesValue notes
  = calculateTotalRemainingCash st.
Proof.
  pose proof getDenominationsNeeded_stock.
  unfold calculateTotalRemainingCash, notesValue. lia.
Qed.

End AllocatorCall.

(** ** What an event does to the cash and to the account *)

Lemma displayTimedMessage_Booked message default_message st :
  Booked st (displayTimedMessage message default_message st).
Proof.
  unfold displayTimedMessage. cbn.
  destruct (messageTimerOn st); now constructor.
Qed.

Lemma withdraw_Booked a st : Booked st (withdraw a st).
Proof.
  unfold withdraw.
  destruct (JS.gt a 0 && JS.le a (balance st + overdraftLimit)) eqn:E;
    [|now constructor].
  destruct a as [amount|]; [|now constructor].
  apply andb_prop in E as [E _]. cbn in E. apply Z.ltb_lt in E.
  now apply (NotesBooked _ _ amount (fst (getDenominationsNeeded amount st))).
Qed.

Lemma Booked_frame st st1 st2 :
  Booked st st1 ->
  availableNotes st2 = availableNotes st1 -> userNotes st2 = userNotes st1 ->
  userAmount st2 = userAmount st1 -> balance st2 = balance st1 ->
  allocatorCalls st2 = allocatorCalls st1 ->
  Booked st st2.
Proof.
  intros [Ha Hn Hu Hc|amount notes Hp Hnotes Ha Hn Hu Hb Hc] Ea En Eu Eb Ec.
  - constructor; congruence.
  - apply (NotesBooked _ _ amount notes); congruence.
Qed.

Lemma step_Booked e st : Booked st (step e st).
Proof.
  destruct e as [digit| |response|]; cbn.
  - unfold inputManager, pinInserter, withdrawalInserter.
    repeat match goal with |- context [if ?b then _ else _] => destruct b end;
      try apply displayTimedMessage_Booked; now constructor.
  - unfold digitRemover.
    repeat match goal with |- context [if ?b then _ else _] => destruct b end;
      try apply displayTimedMessage_Booked; now constructor.
  - unfold attemptUserInput.
    destruct (loginScreen st).
    + destruct response as [currentBalance|]; cbn;
        unfold displayTimedMessage; cbn; destruct (messageTimerOn st); now constructor.
    + destruct (JS.le _ _).
      * destruct (JS.remIsZero _ _ && _).
        -- apply (Booked_frame _ _ _ (withdraw_Booked (JS.parseInt (toWithdraw st)) st));
             unfold displayTimedMessage; cbn;
             match goal with |- context [if ?b then _ else _] => destruct b end;
             reflexivity.
        -- destruct (negb _); unfold displayTimedMessage; cbn;
             destruct (messageTimerOn st); now constructor.
      * unfold displayTimedMessage; cbn; destruct (messageTimerOn st); now constructor.
  - unfold timeoutCallback. destruct (pendingTimeout st); now constructor.
Qed.

(** ** Reachable states *)

Lemma run_snoc events e st : run (events ++ [e]) st = step e (run events st).
Proof. unfold run. now rewrite fold_left_app. Qed.

Lemma run_app events1 events2 st :
  run (events1 ++ events2) st = run events2 (run events1 st).
Proof. unfold run. now rewrite fold_left_app. Qed.

Lemma run_invariant (P : State -> Prop) :
  P init -> (forall st e, P st -> P (step e st)) ->
  forall events, P (run events init).
Proof.
  intros H0 Hstep events. induction events as [|e events IH] using rev_ind.
  - exact H0.
  - rewrite run_snoc. now apply Hstep.
Qed.

Lemma reachable_step st e : reachable st -> reachable (step e st).
Proof. intros [events ->]. exists (events ++ [e]). now rewrite run_snoc. Qed.

(** The stock never goes below zero. *)
Lemma step_nonNegative st e :
  nonNegative (availableNotes st) -> nonNegative (availableNotes (step e st)).
Proof.
  intros H.
  destruct (step_Booked e st) as [Ha _ _ _|amount notes _ _ Ha _ _ _ _];
    rewrite Ha; [exact H|].
  now apply getDenominationsNeeded_nonNegative.
Qed.

Lemma reachable_nonNegative st : reachable st -> nonNegative (availableNotes st).
Proof.
  intros [events ->]. apply run_invariant.
  - unfold nonNegative. cbn. lia.
  - intros. now apply step_nonNegative.
Qed.

(** ** Buffers *)

Lemma length_append (s t : string) :
  String.length (s +:+ t) = (String.length s + String.length t)%nat.
Proof. induction s as [|c s IH]; simpl; [reflexivity|]. now f_equal. Qed.

Arguments String.append : simpl never.

Lemma length_substring_prefix (n : nat) (s : string) :
  (String.length (String.substring 0 n s) <= n)%nat.
Proof.
  revert s. induction n as [|n IH]; intros s.
  - destruct s; cbn; lia.
  - destruct s as [|c s]; cbn; [lia|]. specialize (IH s). lia.
Qed.

Lemma displayTimedMessage_buffers message default_message st :
  pin (displayTimedMessage message default_message st) = pin st
  /\ toWithdraw (displayTimedMessage message default_message st) = toWithdraw st.
Proof. unfold displayTimedMessage. cbn. now destruct (messageTimerOn st). Qed.

Lemma withdraw_buffers a st :
  pin (withdraw a st) = pin st /\ toWithdraw (withdraw a st) = toWithdraw st.
Proof.
  unfold withdraw. destruct (_ && _); [|easy]. now destruct a.
Qed.

Lemma step_buffersWithinCaps st e :
  buffersWithinCaps st -> buffersWithinCaps (step e st).
Proof.
  unfold buffersWithinCaps. intros [Hp Hw].
  destruct e as [digit| |response|]; cbn.
  - unfold inputManager, pinInserter, withdrawalInserter.
    destruct (loginScreen st);
      match goal with |- context [if ?b then _ else _] => destruct b eqn:E end.
    all: try (rewrite !(proj1 (displayTimedMessage_buffers _ _ _)),
                      !(proj2 (displayTimedMessage_buffers _ _ _)); easy).
    all: apply andb_prop in E as [E _]; apply andb_prop in E as [Ed El];
      apply Nat.eqb_eq in Ed; apply Nat.ltb_lt in El;
      cbn [pin toWithdraw set_pin set_toWithdraw set_terminalText];
      rewrite length_append; lia.
  - unfold digitRemover.
    destruct (loginScreen st);
      match goal with |- context [if ?b then _ else _] => destruct b end; cbn.
    all: try (rewrite !(proj1 (displayTimedMessage_buffers _ _ _)),
                      !(proj2 (displayTimedMessage_buffers _ _ _)); easy).
    + pose proof (length_substring_prefix (String.length (pin st) - 1) (pin st)). lia.
    + pose proof (length_substring_prefix (String.length (toWithdraw st) - 1)
                    (toWithdraw st)). lia.
  - unfold attemptUserInput.
    destruct (loginScreen st).
    + destruct response as [currentBalance|]; cbn;
        rewrite !(proj1 (displayTimedMessage_buffers _ _ _)),
                !(proj2 (displayTimedMessage_buffers _ _ _)); cbn; lia.
    + repeat match goal with |- context [if ?b then _ else _] => destruct b end;
        rewrite !(proj1 (displayTimedMessage_buffers _ _ _)),
                !(proj2 (displayTimedMessage_buffers _ _ _)); cbn;
        rewrite ?(proj1 (withdraw_buffers _ _)); lia.
  - unfold timeoutCallback. now destruct (pendingTimeout st).
Qed.

(** ** Messages *)

Lemma displayTimedMessage_frame message default_message st :
  let st' := displayTimedMessage message default_message st in
  displayCalls st' = message :: displayCalls st
  /\ pin st' = pin st /\ toWithdraw st' = toWithdraw st
  /\ balance st' = balance st /\ loginScreen st' = loginScreen st
  /\ userAmount st' = userAmount st /\ initialBalance st' = initialBalance st
  /\ availableNotes st' = availableNotes st /\ userNotes st' = userNotes st
  /\ allocatorCalls st' = allocatorCalls st
  /\ (messageTimerOn st = false -> terminalText st' = message).
Proof.
  unfold displayTimedMessage. cbn.
  destruct (messageTimerOn st); cbn; repeat split; congruence.
Qed.

Lemma displayTimedMessage_signals sig message default_message st :
  In message (messagesOf sig) ->
  forall st0, displayCalls st0 = displayCalls st ->
  signals sig st0 (displayTimedMessage message default_message st).
Proof.
  intros Hin st0 E. exists message. split; [|exact Hin].
  rewrite E. apply displayTimedMessage_frame.
Qed.

(** Name the facts about the state that has just shown a message. *)
Ltac shown :=
  match goal with
  | |- context [displayTimedMessage ?m ?d ?s] =>
      let F := fresh "F" in
      pose proof (displayTimedMessage_frame m d s) as F; cbn in F;
      destruct F as (? & ? & ? & ? & ? & ? & ? & ? & ? & ? & ?)
  end.

(** ** Confirming an amount: the branches of [attemptUserInput] *)

Section Confirming.
Variable st : State.
Variable response : option Z.
Hypothesis withdrawing : loginScreen st = false.

Abbreviation st' := (step (Confirm response) st).

(** The buffer is not a number, or asks for more than the account has. *)
Lemma confirm_beyond_account :
  JS.le (JS.parseInt (toWithdraw st)) (trueBalance st) = false ->
  st' = displayTimedMessage "Not enough in Account!"
          (withdrawalMessage (set_toWithdraw "" st)) (set_toWithdraw "" st).
Proof.
  intros H. cbn. unfold attemptUserInput.
  now rewrite withdrawing, H.
Qed.

(** The machine has less cash than the amount. *)
Lemma confirm_beyond_cash :
  JS.le (JS.parseInt (toWithdraw st)) (trueBalance st) = true ->
  haveEnoughCash (JS.parseInt (toWithdraw st)) st = false ->
  st' = displayTimedMessage "Not enougth notes present!"
          (withdrawalMessage (set_toWithdraw "" st)) (set_toWithdraw "" st).
Proof.
  intros H1 H2. cbn. unfold attemptUserInput.
  rewrite withdrawing, H1, H2. now rewrite andb_false_r.
Qed.

(** The amount is not a multiple of five, and the cash would do. *)
Lemma confirm_not_dispensable :
  JS.le (JS.parseInt (toWithdraw st)) (trueBalance st) = true ->
  haveEnoughCash (JS.parseInt (toWithdraw st)) st = true ->
  JS.remIsZero (JS.parseInt (toWithdraw st)) 5 = false ->
  st' = displayTimedMessage "Can't dispense that denomination!!"
          (withdrawalMessage (set_toWithdraw "" st)) (set_toWithdraw "" st).
Proof.
  intros H1 H2 H3. cbn. unfold attemptUserInput.
  now rewrite withdrawing, H1, H2, H3.
Qed.

(** Every test passes. *)
Lemma confirm_withdraws :
  JS.le (JS.parseInt (toWithdraw st)) (trueBalance st) = true ->
  haveEnoughCash (JS.parseInt (toWithdraw st)) st = true ->
  JS.remIsZero (JS.parseInt (toWithdraw st)) 5 = true ->
  st' = let st1 := set_toWithdraw "" (withdraw (JS.parseInt (toWithdraw st)) st) in
        displayTimedMessage
          ("Withdrawn: " +:+ JS.toString (JS.parseInt (toWithdraw st)))
          (withdrawalMessage st1) st1.
Proof.
  intros H1 H2 H3. cbn. unfold attemptUserInput.
  now rewrite withdrawing, H1, H2, H3.
Qed.

End Confirming.

Lemma withdraw_displayCalls a st : displayCalls (withdraw a st) = displayCalls st.
Proof. unfold withdraw. destruct (_ && _); [|easy]. now destruct a. Qed.

(** A withdrawal books the notes the allocator returns: the amount less
    the remainder. *)
Lemma withdraw_books amount st :
  0 < amount -> amount <= trueBalance st ->
  let paid := amount - Allocator.remainder amount (availableNotes st) in
  balance (withdraw (JS.Int amount) st) = balance st - paid
  /\ userAmount (withdraw (JS.Int amount) st) = userAmount st + paid
  /\ calculateTotalRemainingCash (withdraw (JS.Int amount) st)
     = calculateTotalRemainingCash st - paid.
Proof.
  intros Hp Hb paid. subst paid. unfold withdraw. cbn [JS.gt JS.le].
  apply Z.ltb_lt in Hp. apply Z.leb_le in Hb. unfold trueBalance in Hb.
  rewrite Hp, Hb. cbn [andb].
  pose proof (getDenominationsNeeded_value amount st) as Hv.
  pose proof (getDenominationsNeeded_cash amount st) as Hc.
  destruct (getDenominationsNeeded amount st) as [notes st1] eqn:E.
  cbn [fst snd] in *. unfold updateUserStats, calculateTotalRemainingCash in *.
  cbn. unfold notesValue in *.
  assert (balance st1 = balance st /\ userAmount st1 = userAmount st) as [-> ->].
  { unfold getDenominationsNeeded in E. injection E as _ <-. now cbn. }
  lia.
Qed.

(** Confirming a positive multiple of five that the account and the cash
    cover: the machine reports the amount asked for, and books the amount
    less the allocator's remainder. *)
Lemma confirm_pays (st : State) (response : option Z) (amount : Z) :
  loginScreen st = false ->
  JS.parseInt (toWithdraw st) = JS.Int amount ->
  0 < amount -> amount <= trueBalance st ->
  Z.rem amount 5 = 0 ->
  amount <= calculateTotalRemainingCash st ->
  let st' := step (Confirm response) st in
  let paid := amount - Allocator.remainder amount (availableNotes st) in
  signals (WithdrawalSucceeded amount) st st'
  /\ toWithdraw st' = ""
  /\ balance st' = balance st - paid
  /\ userAmount st' = userAmount st + paid
  /\ calculateTotalRemainingCash st' = calculateTotalRemainingCash st - paid.
Proof.
  intros Hw Hp Hpos Hb Hr Hc st' paid.
  assert (H1 : JS.le (JS.parseInt (toWithdraw st)) (trueBalance st) = true)
    by (rewrite Hp; now apply Z.leb_le).
  assert (H2 : haveEnoughCash (JS.parseInt (toWithdraw st)) st = true)
    by (rewrite Hp; now apply Z.leb_le).
  assert (H3 : JS.remIsZero (JS.parseInt (toWithdraw st)) 5 = true)
    by (rewrite Hp; now apply Z.eqb_eq).
  pose proof (confirm_withdraws st response Hw H1 H2 H3) as E.
  fold st' in E. cbv zeta in E. rewrite Hp in E. cbn [JS.toString] in E.
  destruct (withdraw_books amount st Hpos Hb) as (Wb & Wu & Wc).
  pose proof (withdraw_displayCalls (JS.Int amount) st) as Wd.
  unfold calculateTotalRemainingCash in *.
  rewrite E. shown. subst paid.
  repeat split; try congruence.
  exists ("Withdrawn: " +:+ pretty amount). split; [congruence|]. cbn. auto.
Qed.

(** * The claims *)

(** ** Allocation *)

(** C1, on the machine: after a login with 1000 and a withdrawal of 290 the
    stock is two tens.  A call of the allocator with 15, a multiple of five
    that the 20 in cash cover, returns one ten and leaves a remainder of 5:
    the notes returned do not make up the amount, and the stock the caller
    sees afterwards is one ten, not the two of before the call. *)
Theorem allocator_commits_on_failure :
  let st := run twoTensLeft init in
  let notes := fst (getDenominationsNeeded 15 st) in
  let st' := snd (getDenominationsNeeded 15 st) in
  availableNotes st = {| five := 0; ten := 2; twenty := 0 |}
  /\ Z.rem 15 5 = 0
  /\ 15 <= calculateTotalRemainingCash st
  /\ Allocator.remainder 15 (availableNotes st) = 5
  /\ notes = {| five := 0; ten := 1; twenty := 0 |}
  /\ notesValue notes <> 15
  /\ availableNotes st' = {| five := 0; ten := 1; twenty := 0 |}
  /\ Allocator.remainder 15 (availableNotes st) <> 0
  /\ availableNotes st' <> availableNotes st.
Proof.
  cbv zeta.
  repeat match goal with |- _ /\ _ => split end; vm_compute; congruence.
Qed.

(** Whatever the stock and the amount, the stock after a call of the
    allocator is the stock before it less the notes returned, and these are
    worth the amount less the remainder. *)
Lemma allocator_commits_bundle (amount : Z) (st : State) :
  let notes := fst (getDenominationsNeeded amount st) in
  let st' := snd (getDenominationsNeeded amount st) in
  availableNotes st'
  = {| five := five (availableNotes st) - five notes;
       ten := ten (availableNotes st) - ten notes;
       twenty := twenty (availableNotes st) - twenty notes |}
  /\ notesValue notes = amount - Allocator.remainder amount (availableNotes st)
  /\ (availableNotes st' = availableNotes st <-> notes = noNotes).
Proof.
  intros notes st'.
  pose proof (getDenominationsNeeded_stock amount st) as (H20 & H10 & H5).
  pose proof (getDenominationsNeeded_value amount st) as Hv.
  fold notes st' in H20, H10, H5, Hv.
  assert (E : availableNotes st'
              = {| five := five (availableNotes st) - five notes;
                   ten := ten (availableNotes st) - ten notes;
                   twenty := twenty (availableNotes st) - twenty notes |}).
  { destruct (availableNotes st') as [f t w]. cbn in *. f_equal; lia. }
  split; [exact E|]. split; [lia|].
  rewrite E. destruct (availableNotes st) as [f t w], notes as [nf nt nw].
  unfold noNotes. cbn. split; intros H; injection H as ? ? ?; f_equal; lia.
Qed.

(** C3, as stated, fails: from the opening stock, 100 is not paid out as
    five twenties. *)
Lemma scenario_A_not_five_twenties :
  fst (getDenominationsNeeded 100 init) <> {| five := 0; ten := 0; twenty := 5 |}.
Proof. vm_compute. congruence. Qed.

(** C3, amended: with a stock of seven twenties, fifteen tens and four
    fives, the allocator pays 100 out as four twenties and two tens (the cap
    100 / 26 lets a fourth note through and stops the fifth), and leaves
    three twenties, thirteen tens and four fives. *)
Theorem scenario_A_bundle (st : State) :
  availableNotes st = {| five := 4; ten := 15; twenty := 7 |} ->
  fst (getDenominationsNeeded 100 st) = {| five := 0; ten := 2; twenty := 4 |}
  /\ availableNotes (snd (getDenominationsNeeded 100 st))
     = {| five := 4; ten := 13; twenty := 3 |}
  /\ Allocator.remainder 100 (availableNotes st) = 0.
Proof.
  intros H. unfold getDenominationsNeeded. cbn [fst snd availableNotes
    set_availableNotes set_allocatorCalls]. rewrite H.
  repeat split; vm_compute; reflexivity.
Qed.

Lemma scenario_A_bundle_witness :
  fst (getDenominationsNeeded 100 init) = {| five := 0; ten := 2; twenty := 4 |}
  /\ availableNotes (snd (getDenominationsNeeded 100 init))
     = {| five := 4; ten := 13; twenty := 3 |}
  /\ Allocator.remainder 100 (availableNotes init) = 0.
Proof. apply (scenario_A_bundle init). reflexivity. Defined.

(** ** Confirming an amount *)

(** C4, as stated, fails: with 310 in the machine and 1000 on the account,
    311 is not a multiple of five, and the machine reports a lack of notes. *)
Lemma non_divisible_without_cash :
  let st := run ([Confirm (Some 1000); Timeout] ++ keys "311") init in
  loginScreen st = false
  /\ JS.parseInt (toWithdraw st) = JS.Int 311
  /\ Z.rem 311 5 <> 0
  /\ 311 <= trueBalance st
  /\ signals InsufficientCash st (step (Confirm None) st)
  /\ ~ signals NonDivisibleAmount st (step (Confirm None) st).
Proof.
  cbv zeta.
  assert (E : displayCalls
                (step (Confirm None)
                   (run ([Confirm (Some 1000); Timeout] ++ keys "311") init))
              = "Not enougth notes present!"
                :: displayCalls
                     (run ([Confirm (Some 1000); Timeout] ++ keys "311") init))
    by (vm_compute; reflexivity).
  repeat split; try (vm_compute; congruence).
  - exists "Not enougth notes present!". split; [exact E|]. cbn. auto.
  - intros (message & Hm & Hin). rewrite E in Hm. injection Hm as <-.
    cbn in Hin. destruct Hin as [Hin|[]]. discriminate Hin.
Qed.

(** C4, amended: an amount that is not a multiple of five and is within
    the account's balance and overdraft never reaches the allocator and
    changes no count, the balance or the statistics; the buffer is cleared.
    The machine signals NonDivisibleAmount when it holds at least that much
    cash, and InsufficientCash when it holds less. *)
Theorem non_divisible_never_allocates (st : State) (response : option Z) (amount : Z) :
  loginScreen st = false ->
  JS.parseInt (toWithdraw st) = JS.Int amount ->
  Z.rem amount 5 <> 0 ->
  amount <= trueBalance st ->
  let st' := step (Confirm response) st in
  allocatorCalls st' = allocatorCalls st
  /\ availableNotes st' = availableNotes st
  /\ balance st' = balance st
  /\ userAmount st' = userAmount st
  /\ userNotes st' = userNotes st
  /\ toWithdraw st' = ""
  /\ (amount <= calculateTotalRemainingCash st -> signals NonDivisibleAmount st st')
  /\ (calculateTotalRemainingCash st < amount -> signals InsufficientCash st st').
Proof.
  intros Hw Hp Hr Hb st'.
  assert (H1 : JS.le (JS.parseInt (toWithdraw st)) (trueBalance st) = true)
    by (rewrite Hp; now apply Z.leb_le).
  assert (H3 : JS.remIsZero (JS.parseInt (toWithdraw st)) 5 = false)
    by (rewrite Hp; now apply Z.eqb_neq).
  destruct (haveEnoughCash (JS.parseInt (toWithdraw st)) st) eqn:H2.
  - pose proof (confirm_not_dispensable st response Hw H1 H2 H3) as E.
    fold st' in E. rewrite E. shown.
    rewrite Hp in H2. apply Z.leb_le in H2.
    repeat split; try congruence; [|intros; exfalso; lia].
    intros _. exists "Can't dispense that denomination!!". cbn. auto.
  - pose proof (confirm_beyond_cash st response Hw H1 H2) as E.
    fold st' in E. rewrite E. shown.
    rewrite Hp in H2. apply Z.leb_gt in H2.
    repeat split; try congruence; [intros; exfalso; lia|].
    intros _. exists "Not enougth notes present!". cbn. auto.
Qed.

Lemma non_divisible_never_allocates_witness :
  let st := run ([Confirm (Some 1000); Timeout] ++ keys "37") init in
  let st' := step (Confirm None) st in
  allocatorCalls st' = allocatorCalls st
  /\ availableNotes st' = availableNotes st
  /\ balance st' = balance st
  /\ userAmount st' = userAmount st
  /\ userNotes st' = userNotes st
  /\ toWithdraw st' = ""
  /\ (37 <= calculateTotalRemainingCash st -> signals NonDivisibleAmount st st')
  /\ (calculateTotalRemainingCash st < 37 -> signals InsufficientCash st st').
Proof.
  apply (non_divisible_never_allocates
           (run ([Confirm (Some 1000); Timeout] ++ keys "37") init) None 37).
  - reflexivity.
  - reflexivity.
  - vm_compute. discriminate.
  - vm_compute. discriminate.
Defined.

(** C6, as stated, fails: confirming an empty buffer after the login shows
    the message of an insufficient balance; no message of the script stands
    for an invalid amount. *)
Lemma empty_buffer_not_invalid_amount :
  let st := run [Confirm (Some 1000); Timeout] init in
  loginScreen st = false
  /\ JS.parseInt (toWithdraw st) = JS.NaN
  /\ displayCalls (step (Confirm None) st)
     = "Not enough in Account!" :: displayCalls st
  /\ signals InsufficientBalance st (step (Confirm None) st)
  /\ ~ signals InvalidAmount st (step (Confirm None) st).
Proof.
  cbv zeta. repeat split; try (vm_compute; reflexivity).
  - exists "Not enough in Account!". split; [vm_compute; reflexivity|]. cbn. auto.
  - intros (message & _ & []).
Qed.

(** C6, amended: in the withdrawal screen, confirming a buffer that
    [parseInt] does not read as a number fails the first test, against the
    balance: the machine signals InsufficientBalance and clears the buffer,
    and balance, stock and user statistics are as before. *)
Theorem non_numeric_confirm (st : State) (response : option Z) :
  loginScreen st = false ->
  JS.parseInt (toWithdraw st) = JS.NaN ->
  let st' := step (Confirm response) st in
  signals InsufficientBalance st st'
  /\ toWithdraw st' = ""
  /\ balance st' = balance st
  /\ availableNotes st' = availableNotes st
  /\ userAmount st' = userAmount st
  /\ userNotes st' = userNotes st
  /\ allocatorCalls st' = allocatorCalls st.
Proof.
  intros Hw Hp st'.
  assert (H1 : JS.le (JS.parseInt (toWithdraw st)) (trueBalance st) = false)
    by now rewrite Hp.
  pose proof (confirm_beyond_account st response Hw H1) as E.
  fold st' in E. rewrite E. shown.
  repeat split; try congruence.
  exists "Not enough in Account!". cbn. auto.
Qed.

Lemma non_numeric_confirm_witness :
  let st := run ([Confirm (Some 1000); Timeout] ++ keys "x1") init in
  let st' := step (Confirm None) st in
  signals InsufficientBalance st st'
  /\ toWithdraw st' = ""
  /\ balance st' = balance st
  /\ availableNotes st' = availableNotes st
  /\ userAmount st' = userAmount st
  /\ userNotes st' = userNotes st
  /\ allocatorCalls st' = allocatorCalls st.
Proof.
  apply (non_numeric_confirm
           (run ([Confirm (Some 1000); Timeout] ++ keys "x1") init) None);
    reflexivity.
Defined.

(** C10: in a state the machine can reach, in the withdrawal screen and
    with a balance and overdraft that are not negative, confirming a buffer
    that reads as 0 signals WithdrawalSucceeded(0) and clears the buffer;
    balance, stock, [userAmount] and [userNotes] are as before, and the
    allocator is not called: [withdraw] does nothing unless the amount is
    positive. *)
Theorem confirm_zero (st : State) (response : option Z) :
  reachable st ->
  loginScreen st = false ->
  JS.parseInt (toWithdraw st) = JS.Int 0 ->
  0 <= balance st + overdraftLimit ->
  let st' := step (Confirm response) st in
  signals (WithdrawalSucceeded 0) st st'
  /\ toWithdraw st' = ""
  /\ balance st' = balance st
  /\ availableNotes st' = availableNotes st
  /\ userAmount st' = userAmount st
  /\ userNotes st' = userNotes st
  /\ allocatorCalls st' = allocatorCalls st
  /\ withdraw (JS.Int 0) st = st.
Proof.
  intros Hreach Hw Hp Hb st'.
  destruct (reachable_nonNegative st Hreach) as (H5 & H10 & H20).
  assert (H1 : JS.le (JS.parseInt (toWithdraw st)) (trueBalance st) = true)
    by (rewrite Hp; now apply Z.leb_le).
  assert (H2 : haveEnoughCash (JS.parseInt (toWithdraw st)) st = true).
  { rewrite Hp. apply Z.leb_le. unfold calculateTotalRemainingCash. lia. }
  assert (H3 : JS.remIsZero (JS.parseInt (toWithdraw st)) 5 = true)
    by now rewrite Hp.
  pose proof (confirm_withdraws st response Hw H1 H2 H3) as E.
  fold st' in E. cbv zeta in E. rewrite Hp in E.
  assert (W : withdraw (JS.Int 0) st = st) by reflexivity.
  rewrite W in E. cbn [JS.toString] in E. rewrite E. shown.
  repeat split; try congruence.
  exists ("Withdrawn: " +:+ pretty 0). split; [assumption|]. cbn. auto.
Qed.

Lemma confirm_zero_witness :
  let st := run ([Confirm (Some 50); Timeout] ++ keys "0") init in
  let st' := step (Confirm None) st in
  signals (WithdrawalSucceeded 0) st st'
  /\ toWithdraw st' = ""
  /\ balance st' = balance st
  /\ availableNotes st' = availableNotes st
  /\ userAmount st' = userAmount st
  /\ userNotes st' = userNotes st
  /\ allocatorCalls st' = allocatorCalls st
  /\ withdraw (JS.Int 0) st = st.
Proof.
  apply (confirm_zero (run ([Confirm (Some 50); Timeout] ++ keys "0") init) None).
  - exists ([Confirm (Some 50); Timeout] ++ keys "0"). reflexivity.
  - reflexivity.
  - reflexivity.
  - vm_compute. discriminate.
Defined.

(** ** Bundles that fall short *)

(** C2, on the machine: after a login with 1000 and a withdrawal of 290 the
    stock is two tens.  A request of 15 passes the test against the balance,
    is a multiple of five and is within the 20 in cash; the allocator pays
    one ten and leaves a remainder of 5.  The machine clears the buffer,
    books the ten and signals WithdrawalSucceeded(15); it has no signal for
    the mismatch. *)
Theorem short_bundle_reported_withdrawn :
  let st := run (twoTensLeft ++ keys "15") init in
  let st' := step (Confirm None) st in
  loginScreen st = false
  /\ JS.parseInt (toWithdraw st) = JS.Int 15
  /\ 15 <= trueBalance st
  /\ Z.rem 15 5 = 0
  /\ 15 <= calculateTotalRemainingCash st
  /\ Allocator.remainder 15 (availableNotes st) = 5
  /\ toWithdraw st' = ""
  /\ signals (WithdrawalSucceeded 15) st st'
  /\ ~ signals DenominationMismatch st st'
  /\ allocatorCalls st' = (15, {| five := 0; ten := 1; twenty := 0 |}) :: allocatorCalls st
  /\ userAmount st' = userAmount st + 10
  /\ balance st' = balance st - 10.
Proof.
  cbv zeta.
  repeat match goal with |- _ /\ _ => split end;
    try (vm_compute; congruence).
  - exists "Withdrawn: 15". split; [vm_compute; reflexivity|]. cbn. auto.
  - intros (message & _ & []).
Qed.

(** C8, on the machine: with a balance of 50 and 155 in cash as fifteen
    tens and one five, a request of 140 passes every test.  The first pass
    takes nine tens and the five, the second four tens more, and 5 is left
    over: 135 is paid and booked, the balance is -85, and the machine
    signals WithdrawalSucceeded(140). *)
Theorem scenario_D_short_bundle :
  let st := run (fifteenTensOneFive ++ keys "140") init in
  let st' := step (Confirm None) st in
  loginScreen st = false
  /\ balance st = 50
  /\ trueBalance st = 150
  /\ JS.parseInt (toWithdraw st) = JS.Int 140
  /\ Z.rem 140 5 = 0
  /\ availableNotes st = {| five := 1; ten := 15; twenty := 0 |}
  /\ calculateTotalRemainingCash st = 155
  /\ Allocator.remainder 140 (availableNotes st) = 5
  /\ signals (WithdrawalSucceeded 140) st st'
  /\ allocatorCalls st' = (140, {| five := 1; ten := 13; twenty := 0 |}) :: allocatorCalls st
  /\ balance st' = -85
  /\ inOverdraft st' = true.
Proof.
  cbv zeta.
  repeat match goal with |- _ /\ _ => split end;
    try (vm_compute; congruence).
  exists "Withdrawn: 140". split; [vm_compute; reflexivity|]. cbn. auto.
Qed.

(** Scenario D whenever the allocator composes the 140 in full. *)
Lemma scenario_D_full_bundle (st : State) (response : option Z) :
  loginScreen st = false ->
  balance st = 50 ->
  JS.parseInt (toWithdraw st) = JS.Int 140 ->
  140 <= calculateTotalRemainingCash st ->
  Allocator.remainder 140 (availableNotes st) = 0 ->
  let st' := step (Confirm response) st in
  trueBalance st = 150
  /\ signals (WithdrawalSucceeded 140) st st'
  /\ balance st' = -90
  /\ inOverdraft st' = true.
Proof.
  intros Hw Hb Hp Hc Hr st'.
  assert (Ht : trueBalance st = 150) by (unfold trueBalance, overdraftLimit; lia).
  destruct (confirm_pays st response 140 Hw Hp) as (Hs & _ & B & _);
    [lia|lia|reflexivity|exact Hc|].
  fold st' in Hs, B. rewrite Hr, Hb in B.
  split; [exact Ht|]. split; [exact Hs|]. split; [exact B|].
  unfold inOverdraft. now rewrite B.
Qed.

Example scenario_D_opening_stock :
  let st := run ([Confirm (Some 50); Timeout] ++ keys "140") init in
  balance (step (Confirm None) st) = -90
  /\ inOverdraft (step (Confirm None) st) = true
  /\ userNotes (step (Confirm None) st) = {| five := 0; ten := 2; twenty := 6 |}.
Proof. vm_compute. repeat split; congruence. Qed.

(** ** Invariants *)

Lemma step_cashLedger st e : cashLedger st -> cashLedger (step e st).
Proof.
  unfold cashLedger. intros [Hc Hu].
  destruct (step_Booked e st) as [Ha _ Hu' Hl|amount notes _ Hn Ha _ Hu' _ Hl].
  - unfold calculateTotalRemainingCash in *. rewrite Ha, Hu', Hl. auto.
  - pose proof (getDenominationsNeeded_cash amount st) as Hcash.
    rewrite <- Hn in Hcash.
    unfold calculateTotalRemainingCash, sumZ in *. rewrite Ha, Hu', Hl.
    cbn [map fold_right snd]. lia.
Qed.

Lemma sumZ_composedInFull (calls : list (Z * Notes)) :
  Forall composedInFull calls ->
  sumZ (map (fun call => notesValue (snd call)) calls) = sumZ (map fst calls).
Proof.
  induction 1 as [|call calls Hcall _ IH]; cbn; [reflexivity|].
  unfold composedInFull in Hcall. unfold sumZ in IH. lia.
Qed.

(** C5: after any run of the machine from its opening state, the cash that
    has left the machine is the value of the notes handed out, call of the
    allocator by call, and it is what [userAmount] has counted; when every
    withdrawal was composed in full it is the sum of the amounts asked
    for. *)
Theorem cash_conservation (events : list Event) :
  let st := run events init in
  calculateTotalRemainingCash init - calculateTotalRemainingCash st
  = sumZ (map (fun call => notesValue (snd call)) (allocatorCalls st))
  /\ calculateTotalRemainingCash init - calculateTotalRemainingCash st
     = userAmount st
  /\ (Forall composedInFull (allocatorCalls st) ->
      calculateTotalRemainingCash init - calculateTotalRemainingCash st
      = sumZ (map fst (allocatorCalls st))).
Proof.
  intros st.
  assert (H : cashLedger st).
  { apply run_invariant; [now vm_compute|]. intros. now apply step_cashLedger. }
  destruct H as [Hc Hu]. split; [exact Hc|]. split; [congruence|].
  intros Hall. rewrite Hc. now apply sumZ_composedInFull.
Qed.

Lemma cash_conservation_witness :
  let st := run ([Confirm (Some 500); Timeout] ++ request "100" ++ request "35") init in
  calculateTotalRemainingCash init - calculateTotalRemainingCash st = 35 + (100 + 0).
Proof.
  apply (cash_conservation
           ([Confirm (Some 500); Timeout] ++ request "100" ++ request "35")).
  vm_compute. repeat constructor.
Defined.

(** C9: [userAmount] is the value of [userNotes]: every event keeps the
    equation, and it holds in every state the machine can reach. *)
Theorem userAmount_matches_userNotes :
  (forall st e,
      userAmount st = 5 * five (userNotes st) + 10 * ten (userNotes st)
                      + 20 * twenty (userNotes st) ->
      userAmount (step e st)
      = 5 * five (userNotes (step e st)) + 10 * ten (userNotes (step e st))
        + 20 * twenty (userNotes (step e st)))
  /\ (forall events,
        let st := run events init in
        userAmount st = 5 * five (userNotes st) + 10 * ten (userNotes st)
                        + 20 * twenty (userNotes st)).
Proof.
  assert (Hstep : forall st e,
      userAmount st = 5 * five (userNotes st) + 10 * ten (userNotes st)
                      + 20 * twenty (userNotes st) ->
      userAmount (step e st)
      = 5 * five (userNotes (step e st)) + 10 * ten (userNotes (step e st))
        + 20 * twenty (userNotes (step e st))).
  { intros st e H.
    destruct (step_Booked e st) as [_ Hn Hu _|amount notes _ _ _ Hn Hu _ _].
    - now rewrite Hn, Hu.
    - rewrite Hn, Hu. unfold notesValue. cbn. lia. }
  split; [exact Hstep|].
  intros events.
  apply (run_invariant (fun st =>
    userAmount st = 5 * five (userNotes st) + 10 * ten (userNotes st)
                    + 20 * twenty (userNotes st))); [reflexivity|exact Hstep].
Qed.

Lemma userAmount_matches_userNotes_witness :
  let st := run ([Confirm (Some 500); Timeout] ++ keys "35") init in
  userAmount (step (Confirm None) st)
  = 5 * five (userNotes (step (Confirm None) st))
    + 10 * ten (userNotes (step (Confirm None) st))
    + 20 * twenty (userNotes (step (Confirm None) st)).
Proof.
  apply (proj1 userAmount_matches_userNotes
           (run ([Confirm (Some 500); Timeout] ++ keys "35") init) (Confirm None)).
  reflexivity.
Defined.

(** C7: in every state the machine can reach the PIN has at most four
    characters and the amount at most five; a key pressed when the buffer in
    use is at its cap makes the machine signal InputRejected and leaves both
    buffers as they are (and the message is on the screen unless another
    one is still showing). *)
Theorem buffer_capacity :
  (forall events,
      let st := run events init in
      (String.length (pin st) <= 4)%nat /\ (String.length (toWithdraw st) <= 5)%nat)
  /\ (forall st digit,
        String.length (activeBuffer st) = activeCap st ->
        let st' := step (Digit digit) st in
        signals InputRejected st st'
        /\ pin st' = pin st /\ toWithdraw st' = toWithdraw st
        /\ (messageTimerOn st = false -> terminalText st' = insertionError)).
Proof.
  split.
  - intros events.
    apply (run_invariant buffersWithinCaps).
    + unfold buffersWithinCaps. cbn. lia.
    + intros. now apply step_buffersWithinCaps.
  - intros st digit Hcap st'. subst st'.
    unfold activeBuffer, activeCap in Hcap.
    cbn. unfold inputManager, pinInserter, withdrawalInserter.
    destruct (loginScreen st); rewrite Hcap; cbn [Nat.ltb Nat.leb];
      rewrite andb_false_r; cbn [andb]; shown;
      (repeat split; try congruence; try assumption);
      exists insertionError; (split; [assumption|]); cbn; auto.
Qed.

Lemma buffer_capacity_witness :
  let st := run (keys "1234") init in
  let st' := step (Digit "5") st in
  signals InputRejected st st'
  /\ pin st' = pin st /\ toWithdraw st' = toWithdraw st
  /\ (messageTimerOn st = false -> terminalText st' = insertionError).
Proof.
  apply (proj2 buffer_capacity (run (keys "1234") init) "5").
  reflexivity.
Defined.


(** * Further properties of the script *)

(** ** Messages and the timer *)

Lemma withdraw_frame a st :
  messageTimerOn (withdraw a st) = messageTimerOn st
  /\ pin (withdraw a st) = pin st
  /\ toWithdraw (withdraw a st) = toWithdraw st
  /\ loginScreen (withdraw a st) = loginScreen st
  /\ initialBalance (withdraw a st) = initialBalance st
  /\ terminalText (withdraw a st) = terminalText st
  /\ pendingTimeout (withdraw a st) = pendingTimeout st
  /\ displayCalls (withdraw a st) = displayCalls st.
Proof.
  unfold withdraw. destruct (_ && _); [|easy]. now destruct a.
Qed.

Lemma displayTimedMessage_timer message default_message st :
  (timerAtRest st \/ timerRunning st) ->
  timerRunning (displayTimedMessage message default_message st).
Proof.
  unfold timerAtRest, timerRunning, displayTimedMessage.
  intros [[Hm Hp]|[Hm [d Hp]]]; cbn; rewrite Hm; cbn; eauto.
Qed.

Lemma step_timer st e :
  (timerAtRest st \/ timerRunning st) ->
  timerAtRest (step e st) \/ timerRunning (step e st).
Proof.
  intros H.
  assert (D : forall m d st0,
             messageTimerOn st0 = messageTimerOn st ->
             pendingTimeout st0 = pendingTimeout st ->
             timerAtRest (displayTimedMessage m d st0)
             \/ timerRunning (displayTimedMessage m d st0)).
  { intros m d st0 Em Ep. right. apply displayTimedMessage_timer.
    unfold timerAtRest, timerRunning in *. now rewrite Em, Ep. }
  destruct e as [digit| |response|]; cbn.
  - unfold inputManager, pinInserter, withdrawalInserter.
    repeat match goal with |- context [if ?b then _ else _] => destruct b end;
      try (now apply D); exact H.
  - unfold digitRemover.
    repeat match goal with |- context [if ?b then _ else _] => destruct b end;
      try (now apply D); exact H.
  - unfold attemptUserInput.
    destruct (loginScreen st).
    + destruct response; cbn; now apply D.
    + repeat match goal with |- context [if ?b then _ else _] => destruct b end;
        apply D; cbn; try reflexivity; apply withdraw_frame.
  - unfold timeoutCallback. destruct (pendingTimeout st) eqn:E; [|exact H].
    left. now split.
Qed.

(** While a message is showing, an event other than the timeout leaves the
    timer, the flag and the text on the screen as they are. *)
Lemma step_while_message st e :
  messageTimerOn st = true -> e <> Timeout ->
  pendingTimeout (step e st) = pendingTimeout st
  /\ messageTimerOn (step e st) = true
  /\ terminalText (step e st) = terminalText st.
Proof.
  intros Hm He.
  assert (D : forall m d st0,
             messageTimerOn st0 = true ->
             pendingTimeout st0 = pendingTimeout st ->
             terminalText st0 = terminalText st ->
             pendingTimeout (displayTimedMessage m d st0) = pendingTimeout st
             /\ messageTimerOn (displayTimedMessage m d st0) = true
             /\ terminalText (displayTimedMessage m d st0) = terminalText st).
  { intros m d st0 Em Ep Et. unfold displayTimedMessage. cbn.
    rewrite Em. cbn. auto. }
  destruct (withdraw_frame (JS.parseInt (toWithdraw st)) st)
    as (Wm & _ & _ & _ & _ & Wt & Wp & _).
  destruct e as [digit| |response|]; [| | |congruence]; cbn.
  - unfold inputManager, pinInserter, withdrawalInserter.
    rewrite Hm. cbn [negb]. rewrite !andb_false_r.
    destruct (loginScreen st); now apply D.
  - unfold digitRemover. rewrite Hm. cbn [negb]. rewrite !andb_false_r.
    destruct (loginScreen st); now apply D.
  - unfold attemptUserInput. destruct (loginScreen st).
    + destruct response; cbn [login fst snd]; now apply D.
    + repeat match goal with |- context [if ?b then _ else _] => destruct b end;
        apply D; cbn; congruence.
Qed.

(** X1: the timer of the messages.  In every state the machine can reach
    the flag [messageTimerOn] is set exactly when a timeout is pending.
    While one is pending no event arms the timer again or replaces it: any
    event but the timeout leaves the same timeout pending, the flag set and
    the message on the screen; the timeout clears timer and flag and puts
    the default text of that message on the screen. *)
Theorem timer_matches_flag (events : list Event) :
  let st := run events init in
  (messageTimerOn st = true
   <-> exists default_message, pendingTimeout st = Some default_message)
  /\ (forall default_message e,
        pendingTimeout st = Some default_message ->
        let st' := step e st in
        (e <> Timeout ->
         pendingTimeout st' = Some default_message
         /\ messageTimerOn st' = true
         /\ terminalText st' = terminalText st)
        /\ (e = Timeout ->
            pendingTimeout st' = None
            /\ messageTimerOn st' = false
            /\ terminalText st' = default_message)).
Proof.
  intros st.
  assert (H : timerAtRest st \/ timerRunning st).
  { apply (run_invariant (fun st => timerAtRest st \/ timerRunning st)).
    - left. now split.
    - intros. now apply step_timer. }
  unfold timerAtRest, timerRunning in H.
  assert (F : messageTimerOn st = true
              <-> exists default_message, pendingTimeout st = Some default_message).
  { destruct H as [[Hm Hp]|[Hm [d Hp]]]; rewrite Hm, Hp; split.
    - discriminate.
    - intros [d E]. discriminate E.
    - eauto.
    - reflexivity. }
  split; [exact F|].
  intros d0 e Hp st'. subst st'.
  assert (Hm : messageTimerOn st = true) by (apply F; eauto).
  split.
  - intros He. destruct (step_while_message st e Hm He) as (E1 & E2 & E3).
    rewrite E1. auto.
  - intros ->. cbn. unfold timeoutCallback. rewrite Hp. cbn. auto.
Qed.

Lemma timer_matches_flag_witness :
  let st := run (keys "12345") init in
  let st' := step (Confirm None) st in
  pendingTimeout st' = Some "Pin: ****"
  /\ messageTimerOn st' = true
  /\ terminalText st' = terminalText st.
Proof.
  apply (proj2 (timer_matches_flag (keys "12345")) "Pin: ****" (Confirm None)).
  - reflexivity.
  - discriminate.
Defined.

(** X2: while a message is showing, a key or the delete key changes no
    global, leaves the text on the screen and the pending timer as they
    are, and is answered by InputRejected. *)
Theorem input_blocked_while_message (st : State) (e : Event) :
  messageTimerOn st = true ->
  (e = Delete \/ exists digit, e = Digit digit) ->
  let st' := step e st in
  globals st' = globals st
  /\ terminalText st' = terminalText st
  /\ messageTimerOn st' = true
  /\ pendingTimeout st' = pendingTimeout st
  /\ signals InputRejected st st'.
Proof.
  intros Hm He st'. subst st'.
  assert (D : forall m d,
             In m (messagesOf InputRejected) ->
             globals (displayTimedMessage m d st) = globals st
             /\ terminalText (displayTimedMessage m d st) = terminalText st
             /\ messageTimerOn (displayTimedMessage m d st) = true
             /\ pendingTimeout (displayTimedMessage m d st) = pendingTimeout st
             /\ signals InputRejected st (displayTimedMessage m d st)).
  { intros m d Hin. unfold signals, globals, displayTimedMessage. cbn.
    rewrite Hm. cbn. repeat split; eauto. }
  destruct He as [->|[digit ->]]; cbn.
  - unfold digitRemover. rewrite Hm. cbn [negb]. rewrite !andb_false_r.
    destruct (loginScreen st); apply D; cbn; auto.
  - unfold inputManager, pinInserter, withdrawalInserter.
    rewrite Hm. cbn [negb]. rewrite !andb_false_r.
    destruct (loginScreen st); apply D; cbn; auto.
Qed.

Lemma input_blocked_while_message_witness :
  let st := run (keys "12345") init in
  let st' := step Delete st in
  globals st' = globals st
  /\ terminalText st' = terminalText st
  /\ messageTimerOn st' = true
  /\ pendingTimeout st' = pendingTimeout st
  /\ signals InputRejected st st'.
Proof.
  apply (input_blocked_while_message (run (keys "12345") init) Delete).
  - reflexivity.
  - left. reflexivity.
Defined.

(** X3: a message shown when none is showing goes on the screen; a second
    message asked for before the timeout is dropped; and the timeout puts
    the default text of the first message back, lets input in again, and
    has changed no global. *)
Theorem message_then_timeout (st : State) (m1 d1 m2 d2 : string) :
  messageTimerOn st = false ->
  let shown1 := displayTimedMessage m1 d1 st in
  let shown2 := displayTimedMessage m2 d2 shown1 in
  let after := step Timeout shown2 in
  terminalText shown1 = m1
  /\ terminalText shown2 = m1
  /\ pendingTimeout shown2 = Some d1
  /\ terminalText after = d1
  /\ messageTimerOn after = false
  /\ pendingTimeout after = None
  /\ globals after = globals st.
Proof.
  intros Hm. cbn. unfold timeoutCallback, displayTimedMessage, globals. cbn.
  rewrite Hm. cbn. repeat split.
Qed.

Lemma message_then_timeout_witness :
  let shown1 := displayTimedMessage "PIN incorrect!" "Pin: " init in
  let shown2 := displayTimedMessage insertionError "Pin: *" shown1 in
  let after := step Timeout shown2 in
  terminalText shown1 = "PIN incorrect!"
  /\ terminalText shown2 = "PIN incorrect!"
  /\ pendingTimeout shown2 = Some "Pin: "
  /\ terminalText after = "Pin: "
  /\ messageTimerOn after = false
  /\ pendingTimeout after = None
  /\ globals after = globals init.
Proof.
  apply (message_then_timeout init "PIN incorrect!" "Pin: " insertionError "Pin: *").
  reflexivity.
Defined.

(** ** Keys and the buffers *)

Lemma append_cons (c : ascii) (s t : string) :
  String c s +:+ t = String c (s +:+ t).
Proof. reflexivity. Qed.

Lemma append_empty (t : string) : "" +:+ t = t.
Proof. reflexivity. Qed.

Lemma append_one_assoc (s : string) (c : ascii) (t : string) :
  (s +:+ String c "") +:+ t = s +:+ String c t.
Proof.
  induction s as [|a s IH]; [reflexivity|].
  rewrite !append_cons. now f_equal.
Qed.

Lemma substring_drops_key (s digit : string) :
  String.length digit = 1%nat ->
  String.substring 0 (String.length (s +:+ digit) - 1) (s +:+ digit) = s.
Proof.
  intros Hd. rewrite length_append, Hd.
  replace (String.length s + 1 - 1)%nat with (String.length s) by lia.
  induction s as [|a s IH].
  - rewrite append_empty. cbn. now destruct digit.
  - rewrite append_cons. cbn [String.length String.substring]. now f_equal.
Qed.

Lemma substring_last (s : string) :
  s <> "" ->
  exists c, s = String.substring 0 (String.length s - 1) s +:+ String c "".
Proof.
  induction s as [|a s IH]; [congruence|]. intros _.
  destruct s as [|b s].
  - exists a. reflexivity.
  - destruct IH as [c Hc]; [congruence|]. exists c.
    cbn [String.length] in *.
    replace (S (S (String.length s)) - 1)%nat with (S (String.length s)) by lia.
    replace (S (String.length s) - 1)%nat with (String.length s) in Hc by lia.
    cbn [String.substring]. rewrite append_cons. f_equal.
    destruct (String.length s) eqn:E; exact Hc.
Qed.

(** X4: a key of one character, pressed when no message is showing and the
    buffer in use is below its cap, is appended to that buffer; the other
    buffer and every other global stay as they are, no message is asked
    for, and the screen shows the status line of the new state. *)
Theorem key_accepted (st : State) (digit : string) :
  String.length digit = 1%nat ->
  (String.length (activeBuffer st) < activeCap st)%nat ->
  messageTimerOn st = false ->
  let st' := step (Digit digit) st in
  activeBuffer st' = activeBuffer st +:+ digit
  /\ (if loginScreen st then toWithdraw st' = toWithdraw st else pin st' = pin st)
  /\ terminalText st' = (if loginScreen st then pinMessage st' else withdrawalMessage st')
  /\ displayCalls st' = displayCalls st
  /\ messageTimerOn st' = false
  /\ (balance st', loginScreen st', userAmount st', initialBalance st',
      availableNotes st', userNotes st')
     = (balance st, loginScreen st, userAmount st, initialBalance st,
        availableNotes st, userNotes st).
Proof.
  intros Hd Hl Hm st'. subst st'. cbn.
  unfold inputManager, pinInserter, withdrawalInserter, activeBuffer, activeCap in *.
  rewrite Hd, Hm.
  destruct (loginScreen st) eqn:Hs; apply Nat.ltb_lt in Hl; rewrite Hl;
    cbn; rewrite Hs; repeat split; exact Hm.
Qed.

Lemma key_accepted_witness :
  let st := run (keys "12") init in
  let st' := step (Digit "3") st in
  activeBuffer st' = activeBuffer st +:+ "3"
  /\ (if loginScreen st then toWithdraw st' = toWithdraw st else pin st' = pin st)
  /\ terminalText st' = (if loginScreen st then pinMessage st' else withdrawalMessage st')
  /\ displayCalls st' = displayCalls st
  /\ messageTimerOn st' = false
  /\ (balance st', loginScreen st', userAmount st', initialBalance st',
      availableNotes st', userNotes st')
     = (balance st, loginScreen st, userAmount st, initialBalance st,
        availableNotes st, userNotes st).
Proof.
  apply (key_accepted (run (keys "12") init) "3").
  - reflexivity.
  - vm_compute. lia.
  - reflexivity.
Defined.

(** X5: an input that is not exactly one character long (the empty string,
    or two characters at once) is never put in a buffer: no global changes
    and the machine answers InputRejected. *)
Theorem key_of_wrong_length (st : State) (digit : string) :
  String.length digit <> 1%nat ->
  let st' := step (Digit digit) st in
  globals st' = globals st /\ signals InputRejected st st'.
Proof.
  intros Hd st'. subst st'. cbn.
  unfold inputManager, pinInserter, withdrawalInserter.
  apply Nat.eqb_neq in Hd. rewrite Hd. cbn [andb].
  destruct (loginScreen st); shown; unfold globals, signals;
    (split; [congruence|]);
    exists insertionError; (split; [assumption|]); cbn; auto.
Qed.

Lemma key_of_wrong_length_witness :
  let st := init in
  let st' := step (Digit "12") st in
  globals st' = globals st /\ signals InputRejected st st'.
Proof.
  apply (key_of_wrong_length init "12"). vm_compute. lia.
Defined.

(** X6: the delete key, when no message is showing, takes the last
    character off the buffer in use and nothing else: the old buffer is the
    new one followed by one character, and no message is asked for.  On an
    empty buffer it changes no global and the machine answers
    InputRejected. *)
Theorem delete_key (st : State) :
  messageTimerOn st = false ->
  let st' := step Delete st in
  (activeBuffer st <> "" ->
     (exists c, activeBuffer st = activeBuffer st' +:+ String c "")
     /\ (if loginScreen st then toWithdraw st' = toWithdraw st else pin st' = pin st)
     /\ displayCalls st' = displayCalls st
     /\ loginScreen st' = loginScreen st)
  /\ (activeBuffer st = "" ->
        globals st' = globals st /\ signals InputRejected st st').
Proof.
  intros Hm st'. subst st'. cbn. unfold digitRemover, activeBuffer. rewrite Hm.
  destruct (loginScreen st) eqn:Hs; split; intros Hb.
  - assert (Hlen : (0 <? String.length (pin st))%nat = true)
      by (destruct (pin st); [congruence|reflexivity]).
    rewrite Hlen. cbn [andb negb].
    cbn [loginScreen pin toWithdraw displayCalls set_pin set_terminalText]. rewrite Hs.
    repeat split. now apply substring_last.
  - rewrite Hb. cbn [String.length Nat.ltb Nat.leb andb]. shown. unfold globals, signals.
    split; [congruence|].
    exists deletionError. split; [assumption|]. cbn. auto.
  - assert (Hlen : (0 <? String.length (toWithdraw st))%nat = true)
      by (destruct (toWithdraw st); [congruence|reflexivity]).
    rewrite Hlen. cbn [andb negb].
    cbn [loginScreen pin toWithdraw displayCalls set_toWithdraw set_terminalText]. rewrite Hs.
    repeat split. now apply substring_last.
  - rewrite Hb. cbn [String.length Nat.ltb Nat.leb andb]. shown. unfold globals, signals.
    split; [congruence|].
    exists deletionError. split; [assumption|]. cbn. auto.
Qed.

Lemma delete_key_witness :
  let st := run (keys "12") init in
  let st' := step Delete st in
  (activeBuffer st <> "" ->
     (exists c, activeBuffer st = activeBuffer st' +:+ String c "")
     /\ (if loginScreen st then toWithdraw st' = toWithdraw st else pin st' = pin st)
     /\ displayCalls st' = displayCalls st
     /\ loginScreen st' = loginScreen st)
  /\ (activeBuffer st = "" ->
        globals st' = globals st /\ signals InputRejected st st').
Proof.
  apply (delete_key (run (keys "12") init)). reflexivity.
Defined.

(** X7: pressing a key that is accepted and then the delete key gives the
    globals back as they were. *)
Theorem key_then_delete (st : State) (digit : string) :
  String.length digit = 1%nat ->
  (String.length (activeBuffer st) < activeCap st)%nat ->
  messageTimerOn st = false ->
  globals (step Delete (step (Digit digit) st)) = globals st
  /\ displayCalls (step Delete (step (Digit digit) st)) = displayCalls st.
Proof.
  intros Hd Hl Hm. cbn.
  assert (Hpos : forall s, (0 <? String.length (s +:+ digit))%nat = true)
    by (intros; apply Nat.ltb_lt; rewrite length_append; lia).
  unfold inputManager, pinInserter, withdrawalInserter, activeBuffer, activeCap in *.
  rewrite Hd, Hm.
  destruct (loginScreen st) eqn:Hs; apply Nat.ltb_lt in Hl; rewrite Hl;
    cbn [Nat.eqb andb negb]; unfold digitRemover;
    cbn [loginScreen pin toWithdraw messageTimerOn set_pin set_toWithdraw
         set_terminalText];
    rewrite Hs, Hm, Hpos; cbn [andb negb]; unfold globals;
    cbn [loginScreen pin toWithdraw balance userAmount initialBalance
         availableNotes userNotes displayCalls set_pin set_toWithdraw
         set_terminalText];
    rewrite substring_drops_key by exact Hd; rewrite ?Hs; split; reflexivity.
Qed.

Lemma key_then_delete_witness :
  globals (step Delete (step (Digit "7") init)) = globals init
  /\ displayCalls (step Delete (step (Digit "7") init)) = displayCalls init.
Proof.
  apply (key_then_delete init "7").
  - reflexivity.
  - vm_compute. lia.
  - reflexivity.
Defined.

Lemma accepted_key_step (st : State) (c : ascii) :
  (String.length (activeBuffer st) < activeCap st)%nat ->
  messageTimerOn st = false ->
  let st' := step (Digit (String c "")) st in
  activeBuffer st' = activeBuffer st +:+ String c ""
  /\ activeCap st' = activeCap st
  /\ displayCalls st' = displayCalls st
  /\ messageTimerOn st' = false
  /\ loginScreen st' = loginScreen st.
Proof.
  intros Hl Hm st'. subst st'. cbn.
  unfold inputManager, pinInserter, withdrawalInserter, activeBuffer, activeCap in *.
  rewrite Hm.
  destruct (loginScreen st) eqn:Hs; apply Nat.ltb_lt in Hl; rewrite Hl;
    cbn; rewrite Hs; repeat split; exact Hm.
Qed.

(** X8: keying in a text, character by character, when no message is
    showing and the text fits under the cap, leaves the buffer in use
    extended by exactly that text; no message is asked for on the way. *)
Theorem typing_fills_buffer (text : string) (st : State) :
  messageTimerOn st = false ->
  (String.length (activeBuffer st) + String.length text <= activeCap st)%nat ->
  let st' := run (keys text) st in
  activeBuffer st' = activeBuffer st +:+ text
  /\ displayCalls st' = displayCalls st
  /\ messageTimerOn st' = false
  /\ loginScreen st' = loginScreen st.
Proof.
  revert st. induction text as [|c text IH]; intros st Hm Hl; cbn [keys run fold_left].
  - repeat split; try assumption.
    clear. induction (activeBuffer st) as [|a s IHs]; [reflexivity|].
    rewrite append_cons. now f_equal.
  - cbn [String.length] in Hl.
    destruct (accepted_key_step st c) as (Hb & Hc & Hd & Hm' & Hs); [lia|exact Hm|].
    fold (run (keys text) (step (Digit (String c "")) st)).
    destruct (IH (step (Digit (String c "")) st)) as (Hb2 & Hd2 & Hm2 & Hs2).
    + exact Hm'.
    + rewrite Hb, Hc, length_append. cbn [String.length]. lia.
    + rewrite Hb2, Hd2, Hs2, Hb, append_one_assoc. repeat split; assumption.
Qed.

Lemma typing_fills_buffer_witness :
  let st := run [Confirm (Some 500); Timeout] init in
  let st' := run (keys "12345") st in
  activeBuffer st' = activeBuffer st +:+ "12345"
  /\ displayCalls st' = displayCalls st
  /\ messageTimerOn st' = false
  /\ loginScreen st' = loginScreen st.
Proof.
  apply (typing_fills_buffer "12345" (run [Confirm (Some 500); Timeout] init)).
  - reflexivity.
  - vm_compute. lia.
Defined.

(** ** Reading the amount *)

Lemma digits_decimal (s : string) :
  allDecimalDigits s = true ->
  forall a, 0 <= a ->
    exists n, JS.digits 10 s (JS.Int a) = JS.Int n
              /\ a * 10 ^ Z.of_nat (String.length s) <= n
                 < (a + 1) * 10 ^ Z.of_nat (String.length s).
Proof.
  induction s as [|c s IH]; intros Hs a Ha.
  - exists a. cbn. split; [reflexivity|lia].
  - cbn [allDecimalDigits] in Hs. apply andb_prop in Hs as [Hc Hs].
    unfold isDecimalDigit in Hc. apply andb_prop in Hc as [H48 H57].
    cbn [JS.digits]. unfold JS.digitValue. cbv zeta. rewrite H48, H57. cbn [andb].
    apply Z.leb_le in H48, H57.
    replace (Z.of_nat (nat_of_ascii c) - 48 <? 10) with true
      by (symmetry; apply Z.ltb_lt; lia).
    destruct (IH Hs (10 * a + (Z.of_nat (nat_of_ascii c) - 48))) as (n & En & Hn);
      [lia|].
    exists n. split; [exact En|].
    cbn [String.length]. rewrite Nat2Z.inj_succ, Z.pow_succ_r by lia.
    assert (0 < 10 ^ Z.of_nat (String.length s)) by (apply Z.pow_pos_nonneg; lia).
    nia.
Qed.

Lemma parseInt_decimal (c : ascii) (s : string) :
  isDecimalDigit c = true -> allDecimalDigits s = true ->
  JS.parseInt (String c s)
  = JS.digits 10 s (JS.Int (Z.of_nat (nat_of_ascii c) - 48)).
Proof.
  intros Hc Hs.
  destruct c as [b0 b1 b2 b3 b4 b5 b6 b7].
  destruct b0, b1, b2, b3, b4, b5, b6, b7; try discriminate Hc;
    try reflexivity.
  destruct s as [|d s]; [reflexivity|].
  cbn [allDecimalDigits] in Hs. apply andb_prop in Hs as [Hd _].
  destruct d as [b0 b1 b2 b3 b4 b5 b6 b7].
  destruct b0, b1, b2, b3, b4, b5, b6, b7; try discriminate Hd; reflexivity.
Qed.

(** A text that holds decimal digits only, at least one, is always read as
    a number, never as [NaN], and the number is not negative and has no
    more digits than the text: with five characters, at most 99999. *)
Lemma parseInt_of_digits (s : string) :
  s <> "" -> allDecimalDigits s = true ->
  exists n, JS.parseInt s = JS.Int n
            /\ 0 <= n < 10 ^ Z.of_nat (String.length s)
            /\ ((String.length s <= 5)%nat -> n <= 99999).
Proof.
  intros Hne Hs. destruct s as [|c s]; [congruence|].
  cbn [allDecimalDigits] in Hs. apply andb_prop in Hs as [Hc Hs].
  rewrite (parseInt_decimal c s Hc Hs).
  unfold isDecimalDigit in Hc. apply andb_prop in Hc as [H48 H57].
  apply Z.leb_le in H48, H57.
  destruct (digits_decimal s Hs (Z.of_nat (nat_of_ascii c) - 48)) as (n & En & Hn);
    [lia|].
  exists n. split; [exact En|].
  cbn [String.length]. rewrite Nat2Z.inj_succ, Z.pow_succ_r by lia.
  assert (P : 0 < 10 ^ Z.of_nat (String.length s)) by (apply Z.pow_pos_nonneg; lia).
  assert (B : 0 <= n < 10 * 10 ^ Z.of_nat (String.length s)) by nia.
  split; [exact B|]. intros Hl.
  assert (10 ^ Z.of_nat (String.length s) <= 10 ^ 4)
    by (apply Z.pow_le_mono_r; lia).
  lia.
Qed.

Lemma parseInt_of_digits_witness :
  exists n, JS.parseInt "00290" = JS.Int n
            /\ 0 <= n < 10 ^ Z.of_nat (String.length "00290")
            /\ ((String.length "00290" <= 5)%nat -> n <= 99999).
Proof.
  apply (parseInt_of_digits "00290").
  - discriminate.
  - reflexivity.
Defined.

(** X9: what digit keys can ask for.  In every state the machine can
    reach, an amount buffer that is not empty and holds decimal digits only
    is read as a number, never as [NaN], and the number lies between 0 and
    99999. *)
Theorem amount_from_digit_keys (events : list Event) :
  let st := run events init in
  toWithdraw st <> "" ->
  allDecimalDigits (toWithdraw st) = true ->
  exists n, JS.parseInt (toWithdraw st) = JS.Int n /\ 0 <= n <= 99999.
Proof.
  intros st Hne Hd.
  assert (Hcap : buffersWithinCaps st).
  { apply (run_invariant buffersWithinCaps).
    - unfold buffersWithinCaps. cbn. lia.
    - intros. now apply step_buffersWithinCaps. }
  destruct Hcap as [_ Hcap].
  destruct (parseInt_of_digits (toWithdraw st) Hne Hd) as (n & En & Hn & H5).
  exists n. split; [exact En|]. specialize (H5 Hcap). lia.
Qed.

Lemma amount_from_digit_keys_witness :
  let st := run ([Confirm (Some 500); Timeout] ++ keys "99999") init in
  exists n, JS.parseInt (toWithdraw st) = JS.Int n /\ 0 <= n <= 99999.
Proof.
  apply (amount_from_digit_keys ([Confirm (Some 500); Timeout] ++ keys "99999")).
  - discriminate.
  - reflexivity.
Defined.

(** ** The session *)

(** X10: confirming in the login screen.  When the endpoint answers with a
    balance, the machine takes it as balance and as initial balance, leaves
    the login screen and shows "PIN correct!"; the PIN stays in its buffer.
    When it does not, the PIN buffer is emptied, the machine stays in the
    login screen, answers InvalidPin and keeps the balance.  Neither way is
    the stock, the statistics or the amount buffer touched. *)
Theorem login_outcome (st : State) :
  loginScreen st = true ->
  (forall currentBalance,
      let st' := step (Confirm (Some currentBalance)) st in
      loginScreen st' = false
      /\ balance st' = currentBalance /\ initialBalance st' = currentBalance
      /\ pin st' = pin st
      /\ displayCalls st' = "PIN correct!" :: displayCalls st
      /\ (toWithdraw st', userAmount st', availableNotes st', userNotes st',
          allocatorCalls st')
         = (toWithdraw st, userAmount st, availableNotes st, userNotes st,
            allocatorCalls st))
  /\ (let st' := step (Confirm None) st in
      loginScreen st' = true
      /\ pin st' = ""
      /\ signals InvalidPin st st'
      /\ (balance st', initialBalance st') = (balance st, initialBalance st)
      /\ (toWithdraw st', userAmount st', availableNotes st', userNotes st',
          allocatorCalls st')
         = (toWithdraw st, userAmount st, availableNotes st, userNotes st,
            allocatorCalls st)).
Proof.
  intros Hs. split; [intros currentBalance|]; cbn; unfold attemptUserInput;
    rewrite Hs; cbn [login fst snd]; shown; cbn in *.
  - repeat split; congruence.
  - repeat split; try congruence.
    exists "PIN incorrect!". split; [assumption|]. cbn. auto.
Qed.

Lemma login_outcome_witness :
  let st' := step (Confirm None) (run (keys "1234") init) in
  loginScreen st' = true /\ pin st' = "".
Proof.
  destruct (login_outcome (run (keys "1234") init)) as [_ (H1 & H2 & _)].
  - reflexivity.
  - split; [exact H1|exact H2].
Defined.

(** What an event does to the account: a login that succeeds sets the
    balance, and anything else pays out an amount, possibly none, that is
    not negative and, when something is paid, is within the balance and
    the overdraft limit. *)
Lemma withdraw_account a st :
  exists paid,
    0 <= paid
    /\ (paid <> 0 -> paid <= balance st + overdraftLimit)
    /\ balance (withdraw a st) = balance st - paid
    /\ userAmount (withdraw a st) = userAmount st + paid.
Proof.
  unfold withdraw.
  destruct (JS.gt a 0 && JS.le a (balance st + overdraftLimit)) eqn:E;
    [|exists 0; repeat split; lia].
  destruct a as [amount|]; [|exists 0; repeat split; lia].
  apply andb_prop in E as [Hp Hb]. cbn in Hp, Hb.
  apply Z.ltb_lt in Hp. apply Z.leb_le in Hb.
  pose proof (getDenominationsNeeded_value amount st) as Hv.
  pose proof (getDenominationsNeeded_remainder amount st ltac:(lia)) as Hr.
  pose proof (getDenominationsNeeded_nonNegative amount st) as [(N5 & N10 & N20) _].
  exists (notesValue (fst (getDenominationsNeeded amount st))).
  unfold notesValue in *. repeat split; try lia.
Qed.

Lemma step_account e st :
  (loginScreen st = true
   /\ loginScreen (step e st) = false
   /\ (exists currentBalance, e = Confirm (Some currentBalance))
   /\ balance (step e st) = initialBalance (step e st)
   /\ userAmount (step e st) = userAmount st)
  \/ (loginScreen (step e st) = loginScreen st
      /\ initialBalance (step e st) = initialBalance st
      /\ exists paid,
           0 <= paid
           /\ (paid <> 0 ->
               loginScreen st = false /\ paid <= balance st + overdraftLimit)
           /\ balance (step e st) = balance st - paid
           /\ userAmount (step e st) = userAmount st + paid).
Proof.
  assert (Z0 : forall st', loginScreen st' = loginScreen st ->
                 initialBalance st' = initialBalance st ->
                 balance st' = balance st -> userAmount st' = userAmount st ->
                 loginScreen st' = loginScreen st
                 /\ initialBalance st' = initialBalance st
                 /\ exists paid,
                      0 <= paid
                      /\ (paid <> 0 ->
                          loginScreen st = false /\ paid <= balance st + overdraftLimit)
                      /\ balance st' = balance st - paid
                      /\ userAmount st' = userAmount st + paid).
  { intros st' H1 H2 H3 H4. split; [exact H1|]. split; [exact H2|].
    exists 0. repeat split; lia. }
  destruct e as [digit| |response|]; cbn.
  - right. unfold inputManager, pinInserter, withdrawalInserter.
    destruct (loginScreen st) eqn:Hs;
      match goal with |- context [if ?b then _ else _] => destruct b end;
      try shown; apply Z0; cbn; congruence.
  - right. unfold digitRemover.
    destruct (loginScreen st) eqn:Hs;
      match goal with |- context [if ?b then _ else _] => destruct b end;
      try shown; apply Z0; cbn; congruence.
  - unfold attemptUserInput. destruct (loginScreen st) eqn:Hs.
    + destruct response as [currentBalance|]; cbn [login fst snd].
      * left. shown. cbn in *. repeat split; eauto; congruence.
      * right. shown. apply Z0; cbn in *; congruence.
    + right. destruct (JS.le _ _).
      * destruct (JS.remIsZero _ _ && _).
        -- shown. cbn in *.
           destruct (withdraw_frame (JS.parseInt (toWithdraw st)) st)
             as (_ & _ & _ & Wl & Wi & _).
           destruct (withdraw_account (JS.parseInt (toWithdraw st)) st)
             as (paid & P0 & P1 & Pb & Pu).
           split; [congruence|]. split; [congruence|].
           exists paid. repeat split; try congruence; try lia.
        -- destruct (negb _); shown; apply Z0; cbn in *; congruence.
      * shown; apply Z0; cbn in *; congruence.
  - right. unfold timeoutCallback. destruct (pendingTimeout st); now apply Z0.
Qed.

(** X11: the session goes one way.  Only a confirmation that the endpoint
    answers with a balance leaves the login screen; and once the withdrawal
    screen is reached no event brings the login screen back or changes the
    initial balance. *)
Theorem session_goes_one_way (st : State) (e : Event) :
  (loginScreen st = true -> loginScreen (step e st) = false ->
   exists currentBalance, e = Confirm (Some currentBalance))
  /\ (loginScreen st = false ->
      loginScreen (step e st) = false
      /\ initialBalance (step e st) = initialBalance st).
Proof.
  destruct (step_account e st) as [(H1 & H2 & H3 & _)|(H1 & H2 & _)]; split.
  - intros _ _. exact H3.
  - congruence.
  - congruence.
  - intros Hs. split; congruence.
Qed.

Lemma session_goes_one_way_witness :
  let st := run ([Confirm (Some 500); Timeout] ++ keys "20") init in
  loginScreen (step (Confirm None) st) = false
  /\ initialBalance (step (Confirm None) st) = initialBalance st.
Proof.
  apply (proj2 (session_goes_one_way
                  (run ([Confirm (Some 500); Timeout] ++ keys "20") init)
                  (Confirm None))).
  reflexivity.
Defined.

(** X12: in every state the machine can reach, the balance is the initial
    balance less what the user has withdrawn; so the overdraft figure that
    [withdrawalMessage] shows, [userAmount - initialBalance], is the balance
    with its sign changed. *)
Theorem balance_is_initial_less_withdrawn (events : list Event) :
  let st := run events init in
  balance st = initialBalance st - userAmount st
  /\ userAmount st - initialBalance st = - balance st.
Proof.
  intros st.
  assert (H : balance st = initialBalance st - userAmount st
              /\ (loginScreen st = true -> userAmount st = 0)).
  { apply (run_invariant (fun st =>
      balance st = initialBalance st - userAmount st
      /\ (loginScreen st = true -> userAmount st = 0))).
    - split; reflexivity.
    - intros st0 e [Hb Hu].
      destruct (step_account e st0)
        as [(H1 & H2 & _ & H4 & H5)|(H1 & H2 & paid & P0 & P1 & Pb & Pu)].
      + split; [|congruence]. specialize (Hu H1). lia.
      + split; [lia|]. intros Hs. rewrite H1 in Hs. specialize (Hu Hs).
        destruct (Z.eq_dec paid 0) as [->|Hne]; [lia|].
        destruct (P1 Hne). congruence. }
  destruct H as [H _]. split; lia.
Qed.

(** X13: in the withdrawal screen no event raises the balance, and an event
    that lowers it leaves it at or above minus the overdraft limit. *)
Theorem overdraft_limit_respected (st : State) (e : Event) :
  loginScreen st = false ->
  balance (step e st) <= balance st
  /\ (balance (step e st) < balance st -> - overdraftLimit <= balance (step e st)).
Proof.
  intros Hs.
  destruct (step_account e st) as [(H1 & _)|(_ & _ & paid & P0 & P1 & Pb & _)];
    [congruence|].
  split; [lia|]. intros Hlt.
  destruct (P1 ltac:(lia)). lia.
Qed.

Lemma overdraft_limit_respected_witness :
  let st := run ([Confirm (Some 50); Timeout] ++ keys "150") init in
  balance (step (Confirm None) st) <= balance st
  /\ (balance (step (Confirm None) st) < balance st ->
      - overdraftLimit <= balance (step (Confirm None) st)).
Proof.
  apply (overdraft_limit_respected
           (run ([Confirm (Some 50); Timeout] ++ keys "150") init) (Confirm None)).
  reflexivity.
Defined.

(** ** The notes *)

(** X14: notes are neither made nor lost.  In every state the machine can
    reach, for each denomination the notes in the machine and the notes
    handed to the user add up to the opening stock (seven twenties, fifteen
    tens, four fives), and neither count is negative. *)
Theorem notes_are_conserved (events : list Event) :
  let st := run events init in
  twenty (availableNotes st) + twenty (userNotes st) = 7
  /\ ten (availableNotes st) + ten (userNotes st) = 15
  /\ five (availableNotes st) + five (userNotes st) = 4
  /\ nonNegative (availableNotes st)
  /\ nonNegative (userNotes st).
Proof.
  intros st.
  apply (run_invariant (fun st =>
    twenty (availableNotes st) + twenty (userNotes st) = 7
    /\ ten (availableNotes st) + ten (userNotes st) = 15
    /\ five (availableNotes st) + five (userNotes st) = 4
    /\ nonNegative (availableNotes st)
    /\ nonNegative (userNotes st))).
  - unfold nonNegative. cbn. lia.
  - clear. intros st e (H20 & H10 & H5 & Ha & Hu).
    destruct (step_Booked e st) as [Ea En _ _|amount notes _ Hn Ea En _ _ _].
    + rewrite Ea, En. auto.
    + pose proof (getDenominationsNeeded_stock amount st) as (S20 & S10 & S5).
      pose proof (getDenominationsNeeded_nonNegative amount st) as [Nn Na].
      rewrite <- Hn in S20, S10, S5, Nn. specialize (Na Ha).
      rewrite Ea, En. unfold nonNegative in *. cbn [five ten twenty]. lia.
Qed.

(** ** The allocator, further *)

Lemma while_false cond body fuel s :
  cond s = false -> Allocator.while fuel cond body s = s.
Proof. intros H. destruct fuel; cbn; [reflexivity|]. now rewrite H. Qed.

Lemma forEachDenomination_false cond s :
  (forall i, (i < 3)%nat -> cond i s = false) ->
  Allocator.forEachDenomination (Allocator.whileTaking cond) s = s.
Proof.
  intros H. unfold Allocator.forEachDenomination, Allocator.whileTaking.
  cbn [length Allocator.denominations seq fold_left].
  rewrite (while_false (cond 0%nat) _ _ s) by (apply H; lia).
  rewrite (while_false (cond 1%nat) _ _ s) by (apply H; lia).
  now rewrite (while_false (cond 2%nat) _ _ s) by (apply H; lia).
Qed.

(** X15: the allocator never hands out more than it is asked for, nor
    more notes of a denomination than are in stock: for an amount that is
    not negative and a stock without negative counts, the bundle has no
    negative count, is within the stock denomination by denomination, is
    worth at most the amount, and leaves no negative count behind. *)
Theorem bundle_within_stock_and_amount (amount : Z) (st : State) :
  nonNegative (availableNotes st) ->
  0 <= amount ->
  let notes := fst (getDenominationsNeeded amount st) in
  let st' := snd (getDenominationsNeeded amount st) in
  nonNegative notes
  /\ five notes <= five (availableNotes st)
  /\ ten notes <= ten (availableNotes st)
  /\ twenty notes <= twenty (availableNotes st)
  /\ notesValue notes <= amount
  /\ nonNegative (availableNotes st').
Proof.
  intros Hs Ha notes st'.
  pose proof (getDenominationsNeeded_stock amount st) as (S20 & S10 & S5).
  pose proof (getDenominationsNeeded_value amount st) as Hv.
  pose proof (getDenominationsNeeded_remainder amount st Ha) as Hr.
  pose proof (getDenominationsNeeded_nonNegative amount st) as [Nn Na].
  specialize (Na Hs). fold notes st' in S20, S10, S5, Hv, Nn, Na.
  unfold nonNegative in *. repeat split; lia.
Qed.

Lemma bundle_within_stock_and_amount_witness :
  let notes := fst (getDenominationsNeeded 295 init) in
  let st' := snd (getDenominationsNeeded 295 init) in
  nonNegative notes
  /\ five notes <= five (availableNotes init)
  /\ ten notes <= ten (availableNotes init)
  /\ twenty notes <= twenty (availableNotes init)
  /\ notesValue notes <= 295
  /\ nonNegative (availableNotes st').
Proof.
  apply (bundle_within_stock_and_amount 295 init).
  - unfold nonNegative. cbn. lia.
  - lia.
Defined.

(** X16: how far the allocator can fall short.  For a positive multiple of
    five that the cash in the machine covers, and a stock without negative
    counts, what is left over is 0, 5, 10 or 15; when something is left
    over the machine has no five left, and when 10 or more is left over it
    has no ten left either. *)
Theorem shortfall_is_small (amount : Z) (st : State) :
  nonNegative (availableNotes st) ->
  0 < amount ->
  Z.rem amount 5 = 0 ->
  amount <= calculateTotalRemainingCash st ->
  let left := Allocator.remainder amount (availableNotes st) in
  let st' := snd (getDenominationsNeeded amount st) in
  0 <= left < 20
  /\ Z.rem left 5 = 0
  /\ (left <> 0 -> five (availableNotes st') = 0)
  /\ (10 <= left -> ten (availableNotes st') = 0).
Proof.
  intros (N5 & N10 & N20) Hp Hr Hc left st'.
  destruct (AllocatorFacts.passes_inv amount (availableNotes st))
    as [(a0 & a1 & a2 & n0 & n1 & n2 & Ea & En & E20 & E10 & E5 & Ev
         & M0 & M1 & M2 & A0 & A1 & A2) Hamt].
  specialize (A0 N20). specialize (A1 N10). specialize (A2 N5).
  specialize (Hamt ltac:(lia)). fold (Allocator.remainder amount (availableNotes st)) in Hamt, Ev.
  fold left in Hamt, Ev.
  assert (D : Z.rem left 5 = 0).
  { apply Z.rem_divide; [lia|]. apply Z.rem_divide in Hr as [k Hk]; [|lia].
    exists (k - 4 * n0 - 2 * n1 - n2). lia. }
  assert (K : exists q, left = q * 5) by (apply Z.rem_divide in D; [exact D|lia]).
  assert (S : left <> 0 ->
              (left < 20 \/ a0 = 0) /\ (left < 10 \/ a1 = 0) /\ (left < 5 \/ a2 = 0)).
  { intros Hne.
    pose proof (AllocatorFacts.passes_stuck amount (availableNotes st) 0 ltac:(lia) Hne) as T0.
    pose proof (AllocatorFacts.passes_stuck amount (availableNotes st) 1 ltac:(lia) Hne) as T1.
    pose proof (AllocatorFacts.passes_stuck amount (availableNotes st) 2 ltac:(lia) Hne) as T2.
    unfold Allocator.uncappedCond in T0, T1, T2.
    rewrite Ea in T0, T1, T2.
    fold (Allocator.remainder amount (availableNotes st)) in T0, T1, T2.
    fold left in T0, T1, T2. cbn in T0, T1, T2.
    apply andb_false_iff in T0, T1, T2.
    rewrite Z.leb_gt, Z.ltb_ge in T0, T1, T2. lia. }
  assert (Ef : five (availableNotes st') = a2 /\ ten (availableNotes st') = a1).
  { subst st'. unfold getDenominationsNeeded. cbn. now rewrite Ea. }
  destruct Ef as [-> ->]. destruct K as [q Hq].
  unfold calculateTotalRemainingCash in Hc.
  split; [|split; [exact D|split]].
  - split; [exact Hamt|].
    destruct (Z.eq_dec left 0) as [Hz|Hne]; [lia|]. specialize (S Hne). lia.
  - intros Hne. specialize (S Hne). lia.
  - intros H10. specialize (S ltac:(lia)). lia.
Qed.

Lemma shortfall_is_small_witness :
  let st := run (fifteenTensOneFive) init in
  let left := Allocator.remainder 140 (availableNotes st) in
  let st' := snd (getDenominationsNeeded 140 st) in
  0 <= left < 20
  /\ Z.rem left 5 = 0
  /\ (left <> 0 -> five (availableNotes st') = 0)
  /\ (10 <= left -> ten (availableNotes st') = 0).
Proof.
  apply (shortfall_is_small 140 (run fifteenTensOneFive init)).
  - unfold nonNegative. vm_compute. repeat split; discriminate.
  - lia.
  - reflexivity.
  - vm_compute. discriminate.
Defined.

(** X17: asked for less than the smallest note (any amount below 5, also 0
    or a negative one), the allocator takes nothing: the bundle is empty,
    the stock is as before and the whole amount is left over. *)
Theorem small_amount_takes_nothing (amount : Z) (st : State) :
  amount < 5 ->
  fst (getDenominationsNeeded amount st) = noNotes
  /\ availableNotes (snd (getDenominationsNeeded amount st)) = availableNotes st
  /\ Allocator.remainder amount (availableNotes st) = amount.
Proof.
  intros Hlt.
  assert (C : forall lim i avail needed, (i < 3)%nat ->
            Allocator.cappedCond lim i
              {| Allocator.amount := amount; Allocator.notesAvailable := avail;
                 Allocator.notesNeeded := needed |} = false).
  { intros lim i avail needed Hi. unfold Allocator.cappedCond.
    replace (Allocator.denominations !!! i <=? _) with false; [reflexivity|].
    symmetry. apply Z.leb_gt. destruct i as [|[|[|i]]]; cbn; lia. }
  assert (U : forall i avail needed, (i < 3)%nat ->
            Allocator.uncappedCond i
              {| Allocator.amount := amount; Allocator.notesAvailable := avail;
                 Allocator.notesNeeded := needed |} = false).
  { intros i avail needed Hi. unfold Allocator.uncappedCond.
    replace (Allocator.denominations !!! i <=? _) with false; [reflexivity|].
    symmetry. apply Z.leb_gt. destruct i as [|[|[|i]]]; cbn; lia. }
  assert (P : Allocator.passes amount (availableNotes st)
              = {| Allocator.amount := amount;
                   Allocator.notesAvailable :=
                     [twenty (availableNotes st); ten (availableNotes st);
                      five (availableNotes st)];
                   Allocator.notesNeeded := [0; 0; 0] |}).
  { unfold Allocator.passes.
    rewrite forEachDenomination_false by (intros; now apply C).
    cbn [Allocator.amount]. destruct (negb _); [|reflexivity].
    now rewrite forEachDenomination_false by (intros; now apply U). }
  unfold getDenominationsNeeded, Allocator.remainder. rewrite P. cbn.
  repeat split. now destruct (availableNotes st).
Qed.

Lemma small_amount_takes_nothing_witness :
  fst (getDenominationsNeeded 4 init) = noNotes
  /\ availableNotes (snd (getDenominationsNeeded 4 init)) = availableNotes init
  /\ Allocator.remainder 4 (availableNotes init) = 4.
Proof. apply (small_amount_takes_nothing 4 init). lia. Defined.

Lemma passes_firstPass requested available :
  Allocator.passes requested available
  = if negb (Allocator.amount (firstPass requested available) =? 0)
    then Allocator.forEachDenomination (Allocator.whileTaking Allocator.uncappedCond)
           (firstPass requested available)
    else firstPass requested available.
Proof. reflexivity. Qed.

Section FirstPass.
Variables requested total : Z.
Hypothesis stocked : 0 < total.

Abbreviation noteLimits :=
  [JS.div requested total; JS.div requested total; JS.div requested total].

Abbreviation capInv s :=
  (exists n0 n1 n2,
     Allocator.notesNeeded s = [n0; n1; n2]
     /\ withinCap requested total n0 /\ withinCap requested total n1
     /\ withinCap requested total n2).

Lemma takeNote_cap i s :
  (i < 3)%nat -> Allocator.cappedCond noteLimits i s = true ->
  capInv s -> capInv (Allocator.takeNote i s).
Proof.
  intros Hi Hc (n0 & n1 & n2 & En & C0 & C1 & C2).
  unfold Allocator.cappedCond in Hc. apply andb_prop in Hc as [_ Hc].
  rewrite En in Hc. unfold Allocator.takeNote. cbn [Allocator.notesNeeded].
  rewrite En.
  destruct i as [|[|[|i]]]; [| | |lia]; cbn in Hc |- *;
    rewrite ltQuotient_div in Hc by exact stocked; apply Z.ltb_lt in Hc;
    do 3 eexists; (split; [reflexivity|]); repeat split; try assumption;
    right; lia.
Qed.

Lemma while_cap i fuel :
  (i < 3)%nat ->
  forall s, capInv s ->
    capInv (Allocator.while fuel (Allocator.cappedCond noteLimits i)
              (Allocator.takeNote i) s).
Proof.
  intros Hi. induction fuel as [|fuel IH]; intros s Hs; cbn; [exact Hs|].
  destruct (Allocator.cappedCond noteLimits i s) eqn:E; [|exact Hs].
  apply IH. now apply takeNote_cap.
Qed.

Lemma forEachDenomination_cap s :
  capInv s ->
  capInv (Allocator.forEachDenomination
            (Allocator.whileTaking (Allocator.cappedCond noteLimits)) s).
Proof.
  intros Hs. unfold Allocator.forEachDenomination, Allocator.whileTaking.
  cbn [length Allocator.denominations seq fold_left].
  repeat (apply while_cap; [lia|]). exact Hs.
Qed.

End FirstPass.

(** X18: the soft cap.  With notes in stock, the first pass takes of each
    denomination at most the amount divided by the number of notes in the
    machine, rounded up: a count it reaches is 0, or the count before it
    was still below the quotient.  When the first pass alone composes the
    amount, the bundle returned is the one of the first pass, and so obeys
    the cap. *)
Theorem first_pass_obeys_cap (requested : Z) (st : State) :
  let total := twenty (availableNotes st) + ten (availableNotes st)
               + five (availableNotes st) in
  0 < total ->
  let s := firstPass requested (availableNotes st) in
  (forall i, (i < 3)%nat ->
     withinCap requested total (Allocator.notesNeeded s !!! i))
  /\ (Allocator.amount s = 0 ->
      let notes := fst (getDenominationsNeeded requested st) in
      withinCap requested total (twenty notes)
      /\ withinCap requested total (ten notes)
      /\ withinCap requested total (five notes)).
Proof.
  intros total Ht s.
  assert (H : exists n0 n1 n2,
             Allocator.notesNeeded s = [n0; n1; n2]
             /\ withinCap requested total n0 /\ withinCap requested total n1
             /\ withinCap requested total n2).
  { subst s. unfold firstPass. apply (forEachDenomination_cap requested total Ht).
    exists 0, 0, 0. cbn. repeat split; now left. }
  destruct H as (n0 & n1 & n2 & En & C0 & C1 & C2). split.
  - intros i Hi. rewrite En. destruct i as [|[|[|i]]]; [| | |lia]; assumption.
  - intros Hz notes. subst notes. unfold getDenominationsNeeded.
    rewrite passes_firstPass. fold s. rewrite Hz. clearbody s.
    cbn. rewrite En. cbn. auto.
Qed.

Lemma first_pass_obeys_cap_witness :
  let s := firstPass 100 (availableNotes init) in
  (forall i, (i < 3)%nat -> withinCap 100 26 (Allocator.notesNeeded s !!! i))
  /\ (Allocator.amount s = 0 ->
      let notes := fst (getDenominationsNeeded 100 init) in
      withinCap 100 26 (twenty notes)
      /\ withinCap 100 26 (ten notes)
      /\ withinCap 100 26 (five notes)).
Proof.
  apply (first_pass_obeys_cap 100 init). vm_compute. reflexivity.
Defined.

(** ** Confirming, further *)

(** X19: every confirmation is answered by exactly one message; the
    message goes on the screen when none is showing.  In the withdrawal
    screen a confirmation always empties the amount buffer, whatever the
    answer, and leaves the PIN as it is. *)
Theorem confirm_always_answers (st : State) (response : option Z) :
  let st' := step (Confirm response) st in
  (exists message,
      displayCalls st' = message :: displayCalls st
      /\ (messageTimerOn st = false ->
          terminalText st' = message /\ messageTimerOn st' = true))
  /\ (loginScreen st = false -> toWithdraw st' = "" /\ pin st' = pin st).
Proof.
  intros st'. subst st'.
  assert (D : forall m d st0,
             displayCalls st0 = displayCalls st ->
             messageTimerOn st0 = messageTimerOn st ->
             exists message,
               displayCalls (displayTimedMessage m d st0) = message :: displayCalls st
               /\ (messageTimerOn st = false ->
                   terminalText (displayTimedMessage m d st0) = message
                   /\ messageTimerOn (displayTimedMessage m d st0) = true)).
  { intros m d st0 Ec Em. exists m. unfold displayTimedMessage. cbn.
    rewrite Em, Ec. split; [now destruct (messageTimerOn st)|].
    intros ->. cbn. auto. }
  destruct (withdraw_frame (JS.parseInt (toWithdraw st)) st)
    as (Wm & Wp & _ & _ & _ & _ & _ & Wd).
  cbn. unfold attemptUserInput.
  destruct (loginScreen st) eqn:Hs; (split; [|intros; try discriminate]).
  - destruct response; cbn [login fst snd]; now apply D.
  - repeat match goal with |- context [if ?b then _ else _] => destruct b end;
      now apply D.
  - repeat match goal with |- context [if ?b then _ else _] => destruct b end;
      shown; cbn in *; split; congruence.
Qed.

(** X20: an amount above the balance and the overdraft limit is refused
    first, whatever the cash in the machine and whether or not it is a
    multiple of five: the machine signals InsufficientBalance, empties the
    buffer, does not call the allocator and keeps balance, stock and
    statistics. *)
Theorem beyond_account_refused (st : State) (response : option Z) (amount : Z) :
  loginScreen st = false ->
  JS.parseInt (toWithdraw st) = JS.Int amount ->
  trueBalance st < amount ->
  let st' := step (Confirm response) st in
  signals InsufficientBalance st st'
  /\ toWithdraw st' = ""
  /\ (balance st', availableNotes st', userAmount st', userNotes st',
      allocatorCalls st')
     = (balance st, availableNotes st, userAmount st, userNotes st,
        allocatorCalls st).
Proof.
  intros Hw Hp Hb st'.
  assert (H1 : JS.le (JS.parseInt (toWithdraw st)) (trueBalance st) = false)
    by (rewrite Hp; now apply Z.leb_gt).
  pose proof (confirm_beyond_account st response Hw H1) as E.
  fold st' in E. rewrite E. shown.
  split; [|split; [congruence|congruence]].
  exists "Not enough in Account!". split; [assumption|]. cbn. auto.
Qed.

Lemma beyond_account_refused_witness :
  let st := run ([Confirm (Some 50); Timeout] ++ keys "151") init in
  let st' := step (Confirm None) st in
  signals InsufficientBalance st st'
  /\ toWithdraw st' = ""
  /\ (balance st', availableNotes st', userAmount st', userNotes st',
      allocatorCalls st')
     = (balance st, availableNotes st, userAmount st, userNotes st,
        allocatorCalls st).
Proof.
  apply (beyond_account_refused
           (run ([Confirm (Some 50); Timeout] ++ keys "151") init) None 151).
  - reflexivity.
  - reflexivity.
  - vm_compute. reflexivity.
Defined.

(** X21: an empty machine.  [isATMEmpty] holds of a stock without negative
    counts exactly when every count is 0; and then every positive amount
    within the balance and the overdraft limit is answered by
    InsufficientCash, with the buffer emptied and nothing else changed. *)
Theorem empty_machine_refuses (st : State) (response : option Z) (amount : Z) :
  nonNegative (availableNotes st) ->
  (isATMEmpty st = true <-> availableNotes st = noNotes)
  /\ (isATMEmpty st = true ->
      loginScreen st = false ->
      JS.parseInt (toWithdraw st) = JS.Int amount ->
      0 < amount -> amount <= trueBalance st ->
      let st' := step (Confirm response) st in
      signals InsufficientCash st st'
      /\ toWithdraw st' = ""
      /\ (balance st', availableNotes st', userAmount st', userNotes st',
          allocatorCalls st')
         = (balance st, availableNotes st, userAmount st, userNotes st,
            allocatorCalls st)).
Proof.
  intros (N5 & N10 & N20). unfold isATMEmpty, calculateTotalRemainingCash.
  split.
  - rewrite Z.eqb_eq. destruct (availableNotes st) as [f t w]. cbn in *.
    unfold noNotes. split; [intros H; f_equal; lia|].
    intros H. inversion H. lia.
  - intros He Hw Hp Hpos Hb. set (st' := step (Confirm response) st).
    apply Z.eqb_eq in He.
    assert (H1 : JS.le (JS.parseInt (toWithdraw st)) (trueBalance st) = true)
      by (rewrite Hp; now apply Z.leb_le).
    assert (H2 : haveEnoughCash (JS.parseInt (toWithdraw st)) st = false).
    { rewrite Hp. apply Z.leb_gt. unfold calculateTotalRemainingCash. lia. }
    pose proof (confirm_beyond_cash st response Hw H1 H2) as E.
    fold st' in E. rewrite E. shown.
    split; [|split; [congruence|congruence]].
    exists "Not enougth notes present!". split; [assumption|]. cbn. auto.
Qed.

Lemma empty_machine_refuses_witness :
  let st := run ([Confirm (Some 1000); Timeout] ++ request "310" ++ keys "5") init in
  let st' := step (Confirm None) st in
  signals InsufficientCash st st' /\ toWithdraw st' = "".
Proof.
  destruct (empty_machine_refuses
              (run ([Confirm (Some 1000); Timeout] ++ request "310" ++ keys "5") init)
              None 5) as [_ H].
  - unfold nonNegative. vm_compute. repeat split; discriminate.
  - destruct H as (H1 & H2 & _).
    + reflexivity.
    + reflexivity.
    + reflexivity.
    + lia.
    + vm_compute. discriminate.
    + split; [exact H1|exact H2].
Defined.

(** X22: an amount that is not positive.  In a state the machine can reach,
    a buffer read as 0 or as a negative multiple of five (a minus sign can
    be keyed in like any character) within the balance and the overdraft
    limit is answered by WithdrawalSucceeded with that amount, although the
    allocator is not called and balance, stock and statistics stay as they
    are. *)
Theorem non_positive_amount_reported (st : State) (response : option Z) (amount : Z) :
  reachable st ->
  loginScreen st = false ->
  JS.parseInt (toWithdraw st) = JS.Int amount ->
  amount <= 0 ->
  Z.rem amount 5 = 0 ->
  amount <= trueBalance st ->
  let st' := step (Confirm response) st in
  signals (WithdrawalSucceeded amount) st st'
  /\ toWithdraw st' = ""
  /\ (balance st', availableNotes st', userAmount st', userNotes st',
      allocatorCalls st')
     = (balance st, availableNotes st, userAmount st, userNotes st,
        allocatorCalls st).
Proof.
  intros Hreach Hw Hp Hn Hr Hb st'.
  destruct (reachable_nonNegative st Hreach) as (H5 & H10 & H20).
  assert (H1 : JS.le (JS.parseInt (toWithdraw st)) (trueBalance st) = true)
    by (rewrite Hp; now apply Z.leb_le).
  assert (H2 : haveEnoughCash (JS.parseInt (toWithdraw st)) st = true).
  { rewrite Hp. apply Z.leb_le. unfold calculateTotalRemainingCash. lia. }
  assert (H3 : JS.remIsZero (JS.parseInt (toWithdraw st)) 5 = true)
    by (rewrite Hp; now apply Z.eqb_eq).
  pose proof (confirm_withdraws st response Hw H1 H2 H3) as E.
  fold st' in E. cbv zeta in E. rewrite Hp in E.
  assert (W : withdraw (JS.Int amount) st = st).
  { unfold withdraw. cbn [JS.gt]. now rewrite (proj2 (Z.ltb_ge 0 amount) Hn). }
  rewrite W in E. cbn [JS.toString] in E. rewrite E. shown.
  split; [|split; [congruence|congruence]].
  exists ("Withdrawn: " +:+ pretty amount). split; [assumption|]. cbn. auto.
Qed.

Lemma non_positive_amount_reported_witness :
  let st := run ([Confirm (Some 50); Timeout] ++ keys "-5") init in
  let st' := step (Confirm None) st in
  signals (WithdrawalSucceeded (-5)) st st'
  /\ toWithdraw st' = ""
  /\ (balance st', availableNotes st', userAmount st', userNotes st',
      allocatorCalls st')
     = (balance st, availableNotes st, userAmount st, userNotes st,
        allocatorCalls st).
Proof.
  apply (non_positive_amount_reported
           (run ([Confirm (Some 50); Timeout] ++ keys "-5") init) None (-5)).
  - exists ([Confirm (Some 50); Timeout] ++ keys "-5"). reflexivity.
  - reflexivity.
  - reflexivity.
  - lia.
  - reflexivity.
  - vm_compute. discriminate.
Defined.

(** ** The PIN on the screen *)



